(** * LSP-pyright: interpreter resolution of [plugin.py]

    A shallow embedding of [plugin.py] (the module constants, the cached
    project-root test, the upward venv walk, the two resolvers, the
    start-up hook and the dependency-path composer), followed by the
    properties established about it.

    Python strings are [string]s whose characters are code points below
    256.  Everything the plugin asks of its host (the [os.path] module of
    the platform, the filesystem, external commands, the editor) is read
    from a [World]; the calls the plugin makes are recorded as [event]s. *)

From Stdlib Require Import String Ascii List Bool Arith ZArith Lia.
Import ListNotations.
Local Open Scope string_scope.
Local Open Scope list_scope.
Set Warnings "-register-all".

(* ================================================================== *)
(** ** Python values and the settings dictionary *)
(* ================================================================== *)

(** The values a settings file can hold (JSON numbers are kept as
    integers), with [VNone] for Python's [None]. *)
Inductive value : Type :=
| VNone
| VBool (b : bool)
| VInt (z : Z)
| VStr (s : string)
| VList (l : list value)
| VDict (d : list (string * value)).

(** Python truth value, as used by [if python_path:] and [x or y]. *)
Definition truthy (v : value) : bool :=
  match v with
  | VNone => false
  | VBool b => b
  | VInt z => negb (z =? 0)%Z
  | VStr s => negb (s =? "")
  | VList l => match l with [] => false | _ :: _ => true end
  | VDict d => match d with [] => false | _ :: _ => true end
  end.

(** [x or y] *)
Definition py_or (x y : value) : value := if truthy x then x else y.

(** [Optional[str]] seen as a Python value. *)
Definition of_option (o : option string) : value :=
  match o with Some s => VStr s | None => VNone end.

(** [dict.get(key)]: the value under [key], or [None]. *)
Fixpoint dict_get (d : list (string * value)) (key : string) : value :=
  match d with
  | [] => VNone
  | (k, v) :: rest => if k =? key then v else dict_get rest key
  end.

(** [d[key] = v]: replace in place, or append a new key. *)
Fixpoint dict_set (d : list (string * value)) (key : string) (v : value)
  : list (string * value) :=
  match d with
  | [] => [(key, v)]
  | (k, x) :: rest =>
      if k =? key then (k, v) :: rest else (k, x) :: dict_set rest key v
  end.

(** [s.split(sep)] for a one-character separator. *)
Fixpoint split (sep : ascii) (s : string) : list string :=
  match s with
  | EmptyString => [""]
  | String c r =>
      if Ascii.eqb c sep then "" :: split sep r
      else match split sep r with
           | h :: t => String c h :: t
           | [] => [String c ""]
           end
  end.

(** The host's [DottedDict]: a dictionary addressed by dotted paths. *)
Definition DottedDict := list (string * value).

(** The loop of [DottedDict.get]: descend while the current value is a
    dictionary, give [None] as soon as it is not. *)
Fixpoint dotted_walk (current : value) (keys : list string) : value :=
  match keys with
  | [] => current
  | key :: rest =>
      match current with
      | VDict d => dotted_walk (dict_get d key) rest
      | _ => VNone
      end
  end.

Definition dotted_get (settings : DottedDict) (path : string) : value :=
  dotted_walk (VDict settings) (split "." path).

(** [DottedDict.set]: create the intermediate dictionaries that are
    missing (or are not dictionaries) and assign the last key. *)
Fixpoint dotted_assign (d : list (string * value)) (keys : list string)
  (v : value) : list (string * value) :=
  match keys with
  | [] => d
  | [key] => dict_set d key v
  | key :: rest =>
      let next_current :=
        match dict_get d key with VDict sub => sub | _ => [] end in
      dict_set d key (VDict (dotted_assign next_current rest v))
  end.

Definition dotted_set (settings : DottedDict) (path : string) (v : value)
  : DottedDict :=
  dotted_assign settings (split "." path) v.

(** [WorkspaceFolder]: a display name and an absolute path. *)
Record WorkspaceFolder := { folder_name : string; path : string }.

(* ================================================================== *)
(** ** The world outside the plugin *)
(* ================================================================== *)

(** How [subprocess.check_output] can end: the decoded standard output of
    a command that exited with status zero, or one of the exceptions. *)
Inductive proc_result : Type :=
| Stdout (text : string)
| FileNotFoundError
| CalledProcessError
| OtherOSError.

(** Everything read from the host.  [os_path_join] and [os_path_dirname]
    are the [os.path] functions of the platform ([posixpath] is modelled
    below); [listdir] gives [None] where [os.listdir] raises. *)
Record World := {
  platform : string;                        (* sublime.platform() *)
  USER_HOME : string;      (* os.path.normpath(os.path.expanduser("~")) *)
  cls_name : string;                        (* cls.name() *)
  os_path_join : string -> list string -> string;
  os_path_dirname : string -> string;
  os_path_exists : string -> bool;
  os_path_lexists : string -> bool;
  os_path_isfile : string -> bool;
  os_path_isdir : string -> bool;
  os_listdir : string -> option (list string);
  check_output : list string -> string -> proc_result;
  sys_path : list string;
  packages_path : string;                   (* sublime.packages_path() *)
  package_storage : string;                 (* self.package_storage() *)
  repr : value -> string                    (* text of a non-string value *)
}.

(** What the plugin does to the world, in order. *)
Inductive event : Type :=
| EvExists (p : string)
| EvLexists (p : string)
| EvIsfile (p : string)
| EvIsdir (p : string)
| EvListdir (p : string)
| EvRun (command : list string) (cwd : string) (hide_window : bool)
| EvPrint (line : string).

Inductive exn : Type := ValueError | OSError.

Inductive outcome (A : Type) : Type :=
| Ret (a : A)
| Raise (e : exn).
Arguments Ret {A} a.
Arguments Raise {A} e.

(** The memo table of [functools.lru_cache], most recently used first. *)
Definition cache := list (string * bool).

(** A computation: from the memo table to an outcome, the events it
    caused and the memo table it leaves. *)
Definition M (A : Type) : Type := cache -> outcome A * list event * cache.

Definition ret {A} (a : A) : M A := fun c => (Ret a, [], c).

Definition raise {A} (e : exn) : M A := fun c => (Raise e, [], c).

Definition bind {A B} (m : M A) (k : A -> M B) : M B :=
  fun c =>
    match m c with
    | (Ret a, t1, c1) =>
        match k a c1 with
        | (o, t2, c2) => (o, t1 ++ t2, c2)
        end
    | (Raise e, t1, c1) => (Raise e, t1, c1)
    end.

Notation "x <- m ;; k" := (bind m (fun x => k))
  (at level 61, m at next level, right associativity).
Notation "m ;;; k" := (bind m (fun _ => k))
  (at level 61, right associativity).

Definition emit (e : event) : M unit := fun c => (Ret tt, [e], c).

Definition result_of {A} (r : outcome A * list event * cache) : outcome A :=
  fst (fst r).
Definition trace_of {A} (r : outcome A * list event * cache) : list event :=
  snd (fst r).
Definition cache_of {A} (r : outcome A * list event * cache) : cache :=
  snd r.

(* ================================================================== *)
(** ** Library functions the plugin calls *)
(* ================================================================== *)

(** *** [posixpath] *)
Module posixpath.

Definition startswith_sep (s : string) : bool :=
  match s with
  | String c _ => Ascii.eqb c "/"
  | EmptyString => false
  end.

Fixpoint endswith_sep (s : string) : bool :=
  match s with
  | EmptyString => false
  | String c EmptyString => Ascii.eqb c "/"
  | String _ r => endswith_sep r
  end.

(** One round of the loop of [posixpath.join]: an absolute component
    replaces the path, another one is appended after one separator. *)
Definition join_step (path b : string) : string :=
  if startswith_sep b then b
  else if (path =? "") || endswith_sep path then path ++ b
  else path ++ "/" ++ b.

Definition join (a : string) (p : list string) : string :=
  fold_left join_step p a.

(** [p[:p.rfind('/') + 1]]: the part up to and including the last
    separator, empty when there is none. *)
Fixpoint head_of (p : string) : string :=
  match p with
  | EmptyString => ""
  | String c r =>
      match head_of r with
      | EmptyString => if Ascii.eqb c "/" then "/" else ""
      | h => String c h
      end
  end.

(** [head == sep * len(head)] *)
Fixpoint all_sep (s : string) : bool :=
  match s with
  | EmptyString => true
  | String c r => Ascii.eqb c "/" && all_sep r
  end.

(** [head.rstrip('/')] *)
Fixpoint rstrip_sep (s : string) : string :=
  match s with
  | EmptyString => ""
  | String c r =>
      match rstrip_sep r with
      | EmptyString => if Ascii.eqb c "/" then "" else String c ""
      | t => String c t
      end
  end.

Definition dirname (p : string) : string :=
  let head := head_of p in
  if negb (head =? "") && negb (all_sep head) then rstrip_sep head
  else head.

End posixpath.

(** *** [str.strip()] *)

(** [str.isspace] on one character below 256. *)
Definition isspace (c : ascii) : bool :=
  let n := nat_of_ascii c in
  (((9 <=? n) && (n <=? 13)) || ((28 <=? n) && (n <=? 32))
   || (n =? 133) || (n =? 160))%nat.

Fixpoint lstrip (s : string) : string :=
  match s with
  | EmptyString => ""
  | String c r => if isspace c then lstrip r else s
  end.

Fixpoint rstrip (s : string) : string :=
  match s with
  | EmptyString => ""
  | String c r =>
      match rstrip r with
      | EmptyString => if isspace c then "" else String c ""
      | t => String c t
      end
  end.

Definition strip (s : string) : string := rstrip (lstrip s).

(** *** [shlex.quote] and [" ".join] *)

Definition dquote : string := String (ascii_of_nat 34) "".

(** The characters [shlex] leaves alone: ASCII word characters and
    [@%+=:,./-]. *)
Definition shlex_safe (c : ascii) : bool :=
  let n := nat_of_ascii c in
  (((48 <=? n) && (n <=? 57)) || ((65 <=? n) && (n <=? 90))
   || ((97 <=? n) && (n <=? 122)) || (n =? 95))%nat
  || existsb (Ascii.eqb c) ["@"; "%"; "+"; "="; ":"; ","; "."; "/"; "-"]%char.

Fixpoint all_chars (f : ascii -> bool) (s : string) : bool :=
  match s with
  | EmptyString => true
  | String c r => f c && all_chars f r
  end.

(** [s.replace("'", "'\"'\"'")] *)
Fixpoint escape_single_quotes (s : string) : string :=
  match s with
  | EmptyString => ""
  | String c r =>
      if Ascii.eqb c "'"
      then "'" ++ dquote ++ "'" ++ dquote ++ "'" ++ escape_single_quotes r
      else String c (escape_single_quotes r)
  end.

Definition shlex_quote (s : string) : string :=
  if s =? "" then "''"
  else if all_chars shlex_safe s then s
  else "'" ++ escape_single_quotes s ++ "'".

(** [sep.join(words)] *)
Fixpoint str_join (sep : string) (words : list string) : string :=
  match words with
  | [] => ""
  | [x] => x
  | x :: rest => x ++ sep ++ str_join sep rest
  end.

(** *** [re.sub(r"(python3\.?)[38]", r"\g<1>D", d, flags=re.IGNORECASE)] *)

Definition lower (c : ascii) : ascii :=
  let n := nat_of_ascii c in
  if ((65 <=? n) && (n <=? 90))%nat then ascii_of_nat (n + 32) else c.

(** [s] starts with [prefix], letters compared without case. *)
Fixpoint istartswith (prefix s : string) : bool :=
  match prefix, s with
  | EmptyString, _ => true
  | String p pr, String c r => Ascii.eqb (lower c) p && istartswith pr r
  | String _ _, EmptyString => false
  end.

Definition is38 (c : ascii) : bool := Ascii.eqb c "3" || Ascii.eqb c "8".

(** The length of group 1 when the pattern matches at the start of [s]:
    [python3] in any case, an optional dot, then one of [3] and [8].  A
    dot that is not followed by [3] or [8] cannot be given back, since
    the dot itself is neither. *)
Definition match_group_len (s : string) : option nat :=
  if istartswith "python3" s then
    match substring 7 2 s with
    | String c1 (String c2 _) =>
        if Ascii.eqb c1 "." then (if is38 c2 then Some 8 else None)
        else if is38 c1 then Some 7 else None
    | String c1 EmptyString => if is38 c1 then Some 7 else None
    | EmptyString => None
    end
  else None.

(** Left-to-right replacement of the non-overlapping matches by group 1
    followed by [digit]; [skip] counts the characters of the current
    match that are still to be dropped. *)
Fixpoint re_sub_from (digit : string) (skip : nat) (s : string) : string :=
  match s with
  | EmptyString => ""
  | String c r =>
      match skip with
      | S k => re_sub_from digit k r
      | O =>
          match match_group_len s with
          | Some n => substring 0 n s ++ digit ++ re_sub_from digit n r
          | None => String c (re_sub_from digit 0 r)
          end
      end
  end.

Definition re_sub_python3 (digit : string) (d : string) : string :=
  re_sub_from digit 0 d.

(* ================================================================== *)
(** ** [plugin.py] *)
(* ================================================================== *)

(** The set literal [ROOT_FILES], in the order it is written.  Python
    iterates a set in no fixed order; the answer of the loop over it
    does not depend on the order ([any_marker_order]). *)
Definition ROOT_FILES : list string :=
  [ ".git";
    "poetry.lock";
    "setup.py";
    "dev-requirements.txt";
    "requirements-dev.txt";
    "requirements.txt";
    "test-requirements.txt" ].

(** *** [functools.lru_cache] *)

Fixpoint cache_find (key : string) (c : cache) : option bool :=
  match c with
  | [] => None
  | (k, v) :: rest => if k =? key then Some v else cache_find key rest
  end.

Definition cache_remove (key : string) (c : cache) : cache :=
  filter (fun kv => negb (fst kv =? key)) c.

(** A hit answers from the table and makes the entry the most recent; a
    miss runs the function, stores the answer and drops the least recent
    entry beyond [maxsize].  Nothing is stored when the function raises. *)
Definition lru_cache (maxsize : nat) (f : string -> M bool) (key : string)
  : M bool :=
  fun c =>
    match cache_find key c with
    | Some v => (Ret v, [], (key, v) :: cache_remove key c)
    | None =>
        match f key c with
        | (Ret v, t, c1) => (Ret v, t, firstn maxsize ((key, v) :: c1))
        | (Raise e, t, c1) => (Raise e, t, c1)
        end
    end.

(** A rule of [venv_config_files]: the marker file, the command (its
    first word and the others) and the optional post-processing. *)
Record rule := {
  config_file : string;
  command_head : string;
  command_args : list string;
  post_processing : option (string -> M (option string))
}.

Definition command (r : rule) : list string :=
  command_head r :: command_args r.

(** [list.remove(x)]: drop the first occurrence, [None] (a [ValueError])
    when there is none. *)
Fixpoint list_remove (x : string) (l : list string) : option (list string) :=
  match l with
  | [] => None
  | y :: rest =>
      if y =? x then Some rest
      else match list_remove x rest with
           | Some rest' => Some (y :: rest')
           | None => None
           end
  end.

Section Plugin.

Variable w : World.

(** **** Calls into the world *)

Definition io_exists (p : string) : M bool :=
  emit (EvExists p) ;;; ret (os_path_exists w p).

Definition io_lexists (p : string) : M bool :=
  emit (EvLexists p) ;;; ret (os_path_lexists w p).

Definition io_isfile (p : string) : M bool :=
  emit (EvIsfile p) ;;; ret (os_path_isfile w p).

Definition io_isdir (p : string) : M bool :=
  emit (EvIsdir p) ;;; ret (os_path_isdir w p).

Definition io_listdir (p : string) : M (list string) :=
  emit (EvListdir p) ;;;
  match os_listdir w p with
  | Some names => ret names
  | None => raise OSError
  end.

Definition print (line : string) : M unit := emit (EvPrint line).

Definition join := os_path_join w.

(** **** [is_project_root] *)

(** The loop over the marker names. *)
Fixpoint any_marker (root : string) (names : list string) : M bool :=
  match names with
  | [] => ret false
  | name :: rest =>
      found <- io_exists (join root [name]) ;;
      if found then ret true else any_marker root rest
  end.

(** The function under the decorator. *)
Definition is_project_root_body (root : string) : M bool :=
  if root =? USER_HOME w then ret true
  else any_marker root ROOT_FILES.

Definition is_project_root : string -> M bool :=
  lru_cache 128 is_project_root_body.

(** **** [LspPyrightPlugin] *)

Definition python_exe : string :=
  if negb (platform w =? "windows") then "python" else "python.exe".

Definition _venv_path (root venv_name : string) : M (option string) :=
  let venv := join root [venv_name; "bin"; python_exe] in
  found <- io_exists venv ;;
  ret (if found then Some venv else None).

(** The [while True] loop of [_find_venv], run for at most [fuel]
    rounds: [Some r] when the loop returned [r], [None] when the rounds
    ran out. *)
Fixpoint find_venv_loop (fuel : nat) (root : string)
  : M (option (option string)) :=
  match fuel with
  | O => ret None
  | S fuel' =>
      venv <- _venv_path root "venv" ;;
      match venv with
      | Some v => ret (Some (Some v))
      | None =>
          is_root <- is_project_root root ;;
          if is_root then ret (Some None)
          else
            let dirname := os_path_dirname w root in
            if (String.length root <=? String.length dirname)%nat
               || (dirname =? USER_HOME w)
            then ret (Some None)
            else find_venv_loop fuel' dirname
      end
  end.

(** Each round that goes on shortens [root], so one round more than the
    length of the start path is enough (see [find_venv_loop_returns]). *)
Definition _find_venv (root : string) : M (option string) :=
  present <- io_lexists root ;;
  if negb present then ret None
  else
    r <- find_venv_loop (S (String.length root)) root ;;
    ret (match r with Some venv => venv | None => None end).

(** The loop over the folders of [resolve_virtualenv]. *)
Fixpoint find_venv_in (folders : list WorkspaceFolder) : M value :=
  match folders with
  | [] => ret VNone
  | folder :: rest =>
      venv <- _find_venv (path folder) ;;
      match venv with
      | Some v => ret (VStr v)
      | None => find_venv_in rest
      end
  end.

Definition resolve_virtualenv (settings : DottedDict)
  (folders : list WorkspaceFolder) : M value :=
  let python_path := dotted_get settings "python.pythonPath" in
  if truthy python_path then ret python_path
  else find_venv_in folders.

(** **** [resolve_python_path_from_venv] *)

Definition binary_from_python_path (path : string) : M (option string) :=
  let binary_path :=
    if platform w =? "windows" then join path ["Scripts"; "python.exe"]
    else join path ["bin"; "python"] in
  is_file <- io_isfile binary_path ;;
  ret (if is_file then Some binary_path else None).

Definition venv_config_files : list rule :=
  [ {| config_file := "Pipfile";
       command_head := "pipenv"; command_args := ["--py"];
       post_processing := None |};
    {| config_file := "poetry.lock";
       command_head := "poetry"; command_args := ["env"; "info"; "-p"];
       post_processing := Some binary_from_python_path |};
    {| config_file := ".python-version";
       command_head := "pyenv"; command_args := ["which"; "python"];
       post_processing := None |} ].

(** [subprocess.check_output(command, cwd=..., startupinfo=...,
    universal_newlines=True)]; the window is hidden on Windows only. *)
Definition io_check_output (cmd : list string) (cwd : string)
  : M proc_result :=
  emit (EvRun cmd cwd (platform w =? "windows")) ;;;
  ret (check_output w cmd cwd).

Definition warn_not_found (r : rule) : string :=
  cls_name w ++ ": WARN: " ++ config_file r ++ " detected but "
  ++ command_head r ++ " not found".

Definition warn_non_zero (r : rule) : string :=
  cls_name w ++ ": WARN: " ++ config_file r ++ " detected but "
  ++ str_join " " (map shlex_quote (command r))
  ++ " exited with non-zero exit status".

(** The loop over [venv_config_files]; [after] is the rest of the
    function, reached when the loop ends without a [return]. *)
Fixpoint run_rules (workspace_folder : string) (rules : list rule)
  (after : M value) : M value :=
  match rules with
  | [] => after
  | r :: rest =>
      let full_config_file_path := join workspace_folder [config_file r] in
      is_file <- io_isfile full_config_file_path ;;
      if is_file then
        out <- io_check_output (command r) workspace_folder ;;
        match out with
        | Stdout text =>
            let python_path := strip text in
            match post_processing r with
            | Some post => res <- post python_path ;; ret (of_option res)
            | None => ret (VStr python_path)
            end
        | FileNotFoundError =>
            print (warn_not_found r) ;;;
            run_rules workspace_folder rest after
        | CalledProcessError =>
            print (warn_non_zero r) ;;;
            run_rules workspace_folder rest after
        | OtherOSError => raise OSError
        end
      else run_rules workspace_folder rest after
  end.

Definition binary_from_venv (root child : string) : M (option string) :=
  is_file <- io_isfile (join root [child; "pyvenv.cfg"]) ;;
  if is_file then binary_from_python_path (join root [child])
  else ret None.

(** The two loops over candidate children: [skip] is the [continue]
    test (never true in the first loop), [after] the rest of the
    function. *)
Fixpoint search_children (root : string) (skip : string -> bool)
  (files : list string) (after : M value) : M value :=
  match files with
  | [] => after
  | file :: rest =>
      if skip file then search_children root skip rest after
      else
        binary <- binary_from_venv root file ;;
        match binary with
        | Some b => ret (VStr b)
        | None => search_children root skip rest after
        end
  end.

Definition is_venv_name (file : string) : bool :=
  existsb (String.eqb file) ["venv"; ".venv"].

(** Lines 248 to 265: the search among the children of the folder. *)
Definition search_subfolders (workspace_folder : string) : M value :=
  search_children workspace_folder (fun _ => false) ["venv"; ".venv"]
    (files <- io_listdir workspace_folder ;;
     search_children workspace_folder is_venv_name files (ret VNone)).

Definition resolve_python_path_from_venv (settings : DottedDict)
  (workspace_folders : list WorkspaceFolder) : M value :=
  let python_path := dotted_get settings "python.pythonPath" in
  if truthy python_path then ret python_path
  else
    match workspace_folders with
    | [] => ret VNone
    | first :: _ =>
        let workspace_folder := path first in
        run_rules workspace_folder venv_config_files
          (search_subfolders workspace_folder)
    end.

(** **** [on_pre_start] *)

(** [str.format] of one argument. *)
Definition format_value (v : value) : string :=
  match v with VStr s => s | _ => repr w v end.

(** The hook returns [None]; what it leaves behind is the settings
    object with the interpreter path written into it. *)
Definition on_pre_start (workspace_folders : list WorkspaceFolder)
  (settings : DottedDict) : M DottedDict :=
  resolved <- resolve_python_path_from_venv settings workspace_folders ;;
  let python_path := py_or resolved (VStr "python") in
  print (cls_name w ++ ": Using python path " ++ dquote
         ++ format_value python_path ++ dquote) ;;;
  ret (dotted_set settings "python.pythonPath" python_path).

(** **** [find_package_dependency_dirs] *)

(** The final list comprehension. *)
Fixpoint keep_dirs (dep_dirs : list string) : M (list string) :=
  match dep_dirs with
  | [] => ret []
  | p :: rest =>
      is_dir <- io_isdir p ;;
      kept <- keep_dirs rest ;;
      ret (if is_dir then p :: kept else kept)
  end.

Definition find_package_dependency_dirs (py_ver : Z * Z) : M (list string) :=
  let dep_dirs := sys_path w in
  let digit :=
    if ((fst py_ver =? 3) && (snd py_ver =? 8))%Z then "8" else "3" in
  let dep_dirs := map (re_sub_python3 digit) dep_dirs in
  match list_remove (packages_path w) dep_dirs with
  | None => raise ValueError
  | Some dep_dirs =>
      let dep_dirs := dep_dirs ++ [packages_path w] in
      let dep_dirs :=
        join (package_storage w) ["resources"; "typings"; "sublime_text"]
        :: dep_dirs in
      keep_dirs dep_dirs
  end.

End Plugin.

(* ================================================================== *)
(** ** [plugin.py]: the settings hook *)
(* ================================================================== *)

(** What the settings hook reads from the editor besides the [World]:
    the plugin's own settings file, as
    [sublime.load_settings(package_name + ".sublime-settings")] gives
    it, and the version of the Python the plugin runs on. *)
Record Editor := {
  plugin_settings : list (string * value);
  version_info : Z * Z                       (* sys.version_info[:2] *)
}.

(** [sublime.Settings.get(key, default)] *)
Fixpoint sublime_settings_get (d : list (string * value)) (key : string)
  (default : value) : value :=
  match d with
  | [] => default
  | (k, v) :: rest =>
      if k =? key then v else sublime_settings_get rest key default
  end.

(** [v == s] for a string literal [s]. *)
Definition eq_str (v : value) (s : string) : bool :=
  match v with
  | VStr x => x =? s
  | _ => false
  end.

(** How [on_settings_changed] ends when it does not raise one of the
    exceptions of [exn]: it returns (leaving the settings object as
    given here), or [extraPaths.extend] raises [AttributeError]. *)
Inductive hook_result : Type :=
| Settings (settings : DottedDict)
| AttributeError.

Section SettingsHook.

Variable w : World.
Variable editor : Editor.

Definition get_plugin_setting (key : string) (default : value) : value :=
  sublime_settings_get (plugin_settings editor) key default.

Definition deprecation_line : string :=
  "[LSP-pyright] "
  ++ dquote ++ "dev_environment" ++ dquote
  ++ " setting has been deprecated and will be removed in the future. "
  ++ "Please use " ++ dquote ++ "pyright.dev_environment" ++ dquote
  ++ ", which is under " ++ dquote ++ "settings" ++ dquote ++ " instead.".

Definition get_dev_environment (settings : DottedDict) : M value :=
  let dev_environment := get_plugin_setting "dev_environment" VNone in
  match dev_environment with
  | VNone => ret (dotted_get settings "pyright.dev_environment")
  | _ => print deprecation_line ;;; ret dev_environment
  end.

(** The method of the class; the method of the framework that it calls
    first does nothing.  [extraPaths.extend] is looked up before its
    argument is computed, so a value without that method raises before
    any directory is tested. *)
Definition on_settings_changed (settings : DottedDict) : M hook_result :=
  dev_environment <- get_dev_environment settings ;;
  if existsb (eq_str dev_environment)
       ["sublime_text"; "sublime_text_33"; "sublime_text_38"]
  then
    let py_ver :=
      if eq_str dev_environment "sublime_text" then version_info editor
      else if eq_str dev_environment "sublime_text_38" then (3, 8)%Z
      else (3, 3)%Z in
    let extraPaths :=
      py_or (dotted_get settings "python.analysis.extraPaths") (VList []) in
    match extraPaths with
    | VList paths =>
        dirs <- find_package_dependency_dirs w py_ver ;;
        ret (Settings
               (dotted_set settings "python.analysis.extraPaths"
                  (VList (paths ++ map VStr dirs))))
    | _ => ret AttributeError
    end
  else ret (Settings settings).

End SettingsHook.

(* ================================================================== *)
(** ** Notions used in the statements *)
(* ================================================================== *)

(** The project-root test as section 4.1 words it: the home directory,
    or a directory with one of the marker names as a direct child. *)
Definition is_project_root_spec (w : World) (p : string) : bool :=
  (p =? USER_HOME w)
  || existsb (fun name => os_path_exists w (os_path_join w p [name]))
       ROOT_FILES.

(** A memo table agrees with the world when every stored answer is the
    answer the function would compute now. *)
Definition cache_ok (w : World) (c : cache) : bool :=
  forallb (fun kv => Bool.eqb (snd kv) (is_project_root_spec w (fst kv))) c.

(** The events one call of [is_project_root] on [root] may cause: tests
    of the marker names directly under [root]. *)
Definition marker_probe (w : World) (root : string) (e : event) : Prop :=
  exists name, In name ROOT_FILES /\ e = EvExists (os_path_join w root [name]).

(** [n] times the parent of [root]. *)
Definition up (w : World) (n : nat) (root : string) : string :=
  Nat.iter n (os_path_dirname w) root.

(** The path [_venv_path] tests under [root]. *)
Definition venv_probe (w : World) (root : string) : string :=
  os_path_join w root ["venv"; "bin"; python_exe w].

(** The events of one round of the walk at [root]. *)
Definition round_event (w : World) (root : string) (e : event) : Prop :=
  e = EvExists (venv_probe w root) \/ marker_probe w root e.

(** The interpreter [binary_from_python_path] looks for under [dir]. *)
Definition binary_path (w : World) (dir : string) : string :=
  if platform w =? "windows" then os_path_join w dir ["Scripts"; "python.exe"]
  else os_path_join w dir ["bin"; "python"].

(** A child of [root] is a valid venv when it holds the file
    [pyvenv.cfg] and the interpreter of the platform. *)
Definition valid_venv (w : World) (root child : string) : bool :=
  os_path_isfile w (os_path_join w root [child; "pyvenv.cfg"])
  && os_path_isfile w (binary_path w (os_path_join w root [child])).

(** The children in the order step 4 of section 4.3 takes them: [venv],
    [.venv], then the others as the directory lists them. *)
Definition candidates (names : list string) : list string :=
  ["venv"; ".venv"] ++ filter (fun file => negb (is_venv_name file)) names.

(** Step 4 as the specification words it: the interpreter of the first
    valid candidate, or nothing. *)
Definition first_valid_child (w : World) (root : string)
  (names : list string) : value :=
  match find (valid_venv w root) (candidates names) with
  | Some child => VStr (binary_path w (os_path_join w root [child]))
  | None => VNone
  end.

(** A rule produces nothing when its marker file is missing, or when its
    command is not installed or exits with a non-zero status. *)
Definition rule_gives_nothing (w : World) (workspace_folder : string)
  (r : rule) : bool :=
  negb (os_path_isfile w (os_path_join w workspace_folder [config_file r]))
  || match check_output w (command r) workspace_folder with
     | FileNotFoundError | CalledProcessError => true
     | Stdout _ | OtherOSError => false
     end.

(** The module search path after the [re.sub] of
    [find_package_dependency_dirs]. *)
Definition rewritten_sys_path (w : World) (py_ver : Z * Z) : list string :=
  map (re_sub_python3
         (if ((fst py_ver =? 3) && (snd py_ver =? 8))%Z then "8" else "3"))
      (sys_path w).

(** The depth of a path: the number of separators in it. *)
Fixpoint depth (p : string) : nat :=
  match p with
  | EmptyString => 0
  | String c r => (if Ascii.eqb c "/" then 1 else 0) + depth r
  end.

(** A run with the events [t] before it. *)
Definition after_events {A} (t : list event)
  (r : outcome A * list event * cache) : outcome A * list event * cache :=
  (result_of r, t ++ trace_of r, cache_of r).

(** The walk goes on from [root] to its parent when [root] has no venv
    interpreter, is not a project root, and the test of line 164 lets
    it: the parent is strictly shorter and is not the home directory. *)
Definition walk_continues (w : World) (root : string) : bool :=
  negb (os_path_exists w (venv_probe w root))
  && negb (is_project_root_spec w root)
  && negb ((String.length root <=? String.length (os_path_dirname w root))%nat
           || (os_path_dirname w root =? USER_HOME w)).

(** The interpreter of a conventional venv under [dir], as section 4.2
    words it: [bin/python], or [Scripts/python.exe] on Windows, inside
    the folder [venv]. *)
Definition conventional_interpreter (w : World) (dir : string) : string :=
  os_path_join w dir
    ("venv" :: if platform w =? "windows" then ["Scripts"; "python.exe"]
               else ["bin"; "python"]).

(** The children of [workspace_folder] that the search of lines 248 to
    263 looks into: the two fixed names, and the names that
    [os.listdir] gives for the folder. *)
Definition child_of_folder (w : World) (workspace_folder child : string)
  : Prop :=
  child = "venv" \/ child = ".venv"
  \/ exists names,
       os_listdir w workspace_folder = Some names /\ In child names.

(** What [resolve_python_path_from_venv] may do for the folder
    [workspace_folder]: test the marker file of a rule in it; run, in
    it, the command of a rule whose marker file is there; test the
    interpreter that the command of such a rule with a post-processing
    named; print; list the folder; and test [pyvenv.cfg] and the
    interpreter inside one of the children above. *)
Definition resolver_event (w : World) (workspace_folder : string)
  (e : event) : Prop :=
  match e with
  | EvIsfile p =>
      (exists r, In r (venv_config_files w)
                 /\ p = os_path_join w workspace_folder [config_file r])
      \/ (exists r text,
            In r (venv_config_files w)
            /\ post_processing r <> None
            /\ os_path_isfile w
                 (os_path_join w workspace_folder [config_file r]) = true
            /\ check_output w (command r) workspace_folder = Stdout text
            /\ p = binary_path w (strip text))
      \/ (exists child,
            child_of_folder w workspace_folder child
            /\ p = os_path_join w workspace_folder [child; "pyvenv.cfg"])
      \/ (exists child,
            child_of_folder w workspace_folder child
            /\ p = binary_path w (os_path_join w workspace_folder [child]))
  | EvRun cmd cwd hide_window =>
      cwd = workspace_folder
      /\ hide_window = (platform w =? "windows")
      /\ exists r,
           In r (venv_config_files w) /\ cmd = command r
           /\ os_path_isfile w
                (os_path_join w workspace_folder [config_file r]) = true
  | EvListdir p => p = workspace_folder
  | EvPrint _ => True
  | EvExists _ | EvLexists _ | EvIsdir _ => False
  end.

(** The commands a run started, in order. *)
Fixpoint commands_run (t : list event) : list (list string) :=
  match t with
  | [] => []
  | EvRun cmd _ _ :: rest => cmd :: commands_run rest
  | _ :: rest => commands_run rest
  end.

(** The rules whose marker file is a regular file of the folder. *)
Definition rules_with_marker (w : World) (workspace_folder : string)
  : list rule :=
  filter (fun r => os_path_isfile w
                     (os_path_join w workspace_folder [config_file r]))
         (venv_config_files w).

(** A computation that neither reads nor changes the memo table: its
    outcome and its events are the same from every table, and the table
    is handed on as it came. *)
Definition cache_free {A} (m : M A) : Prop :=
  exists o t, forall c, m c = (o, t, c).

(** The directory of the bundled stubs of the editor's API. *)
Definition stubs_dir (w : World) : string :=
  os_path_join w (package_storage w) ["resources"; "typings"; "sublime_text"].

(** The rewriting of [re_sub_from] with the output kept in step with the
    input: [pending] counts the characters of the current match that
    are still to be copied before its last one is replaced. *)
Fixpoint retarget (digit : ascii) (pending : option nat) (s : string) : string :=
  match s with
  | EmptyString => ""
  | String c r =>
      match pending with
      | Some (S k) => String c (retarget digit (Some k) r)
      | Some O => String digit (retarget digit None r)
      | None =>
          match match_group_len s with
          | Some n => String c (retarget digit (Some (n - 1)) r)
          | None => String c (retarget digit None r)
          end
      end
  end.

(** [s'] is [s] with some characters among [3] and [8] exchanged, each
    right after a [3] or a dot of [s]; [prev] is the character before
    [s]. *)
Fixpoint rewritten (prev : ascii) (s s' : string) : Prop :=
  match s, s' with
  | EmptyString, EmptyString => True
  | String c r, String c' r' =>
      (c' = c \/ (is38 c = true /\ is38 c' = true
                  /\ (prev = "3"%char \/ prev = "."%char)))
      /\ rewritten c r r'
  | _, _ => False
  end.

(** The character [k] places on is a [3] or an [8], and the one before
    it a [3] or a dot. *)
Fixpoint digit_ahead (k : nat) (prev : ascii) (s : string) : Prop :=
  match s with
  | EmptyString => False
  | String c r =>
      match k with
      | O => (prev = "3"%char \/ prev = "."%char) /\ is38 c = true
      | S k' => digit_ahead k' c r
      end
  end.

(** A command ends in one of the two ways the rule loop recovers from:
    it is not installed, or it exits with a non-zero status. *)
Definition recovered (w : World) (workspace_folder : string)
  (cmd : list string) : bool :=
  match check_output w cmd workspace_folder with
  | FileNotFoundError | CalledProcessError => true
  | Stdout _ | OtherOSError => false
  end.

(** The elements of a list up to and including the first one for which
    [go_on] does not hold. *)
Fixpoint through_first {A} (go_on : A -> bool) (l : list A) : list A :=
  match l with
  | [] => []
  | x :: rest => x :: (if go_on x then through_first go_on rest else [])
  end.

(* ================================================================== *)
(** ** Concrete POSIX worlds *)
(* ================================================================== *)

Definition mem (s : string) (l : list string) : bool :=
  existsb (String.eqb s) l.

Fixpoint assoc {A} (key : string) (l : list (string * A)) : option A :=
  match l with
  | [] => None
  | (k, v) :: rest => if k =? key then Some v else assoc key rest
  end.

(** A filesystem given by its regular files, its directories and the
    listing of each directory; the commands that are installed, by their
    first word.  A command that is not installed is not found. *)
Record posix_host := {
  home : string;
  files : list string;
  dirs : list string;
  listings : list (string * list string);
  commands : list (string * proc_result);
  host_sys_path : list string;
  host_packages_path : string;
  host_package_storage : string
}.

Definition posix_world (h : posix_host) : World :=
  {| platform := "linux";
     USER_HOME := home h;
     cls_name := "LSP-pyright";
     os_path_join := posixpath.join;
     os_path_dirname := posixpath.dirname;
     os_path_exists := fun p => mem p (files h) || mem p (dirs h);
     os_path_lexists := fun p => mem p (files h) || mem p (dirs h);
     os_path_isfile := fun p => mem p (files h);
     os_path_isdir := fun p => mem p (dirs h);
     os_listdir := fun p => assoc p (listings h);
     check_output := fun cmd _ =>
       match assoc (hd "" cmd) (commands h) with
       | Some r => r
       | None => FileNotFoundError
       end;
     sys_path := host_sys_path h;
     packages_path := host_packages_path h;
     package_storage := host_package_storage h;
     repr := fun _ => "" |}.

(** A project with nothing but a home directory around it. *)
Definition host_plain : posix_host :=
  {| home := "/home/u";
     files := ["/w/venv/pyvenv.cfg"; "/w/venv/bin/python"; "/w/setup.py"];
     dirs := ["/"; "/home"; "/home/u"; "/w"; "/w/venv"; "/w/venv/bin"];
     listings := [("/w", ["setup.py"; "venv"])];
     commands := [];
     host_sys_path := [];
     host_packages_path := "/home/u/.config/sublime-text/Packages";
     host_package_storage := "/home/u/.cache/sublime-text/Package Storage/LSP-pyright" |}.

(** [poetry.lock] is there and [poetry] answers with an environment that
    has no interpreter in it; [pyenv] and a [.venv] folder could both
    have given one. *)
Definition host_poetry_broken : posix_host :=
  {| home := "/home/u";
     files := ["/proj/poetry.lock"; "/proj/.python-version";
               "/proj/.venv/pyvenv.cfg"; "/proj/.venv/bin/python";
               "/opt/pyenv/versions/3.9.1/bin/python"];
     dirs := ["/"; "/proj"; "/proj/.venv"; "/proj/.venv/bin";
              "/envs"; "/envs/proj-py3.9"];
     listings := [("/proj", ["poetry.lock"; ".python-version"; ".venv"])];
     commands := [("poetry", Stdout "/envs/proj-py3.9
");
                  ("pyenv", Stdout "/opt/pyenv/versions/3.9.1/bin/python
")];
     host_sys_path := [];
     host_packages_path := "/home/u/.config/sublime-text/Packages";
     host_package_storage := "/home/u/.cache/sublime-text/Package Storage/LSP-pyright" |}.

(** [poetry.lock] is there and [poetry] is not installed (or, with
    [commands] filled in, fails); the project has a [.venv] folder. *)
Definition host_poetry_missing (commands : list (string * proc_result))
  : posix_host :=
  {| home := "/home/u";
     files := ["/proj/poetry.lock";
               "/proj/.venv/pyvenv.cfg"; "/proj/.venv/bin/python"];
     dirs := ["/"; "/proj"; "/proj/.venv"; "/proj/.venv/bin"];
     listings := [("/proj", ["poetry.lock"; ".venv"])];
     commands := commands;
     host_sys_path := [];
     host_packages_path := "/home/u/.config/sublime-text/Packages";
     host_package_storage := "/home/u/.cache/sublime-text/Package Storage/LSP-pyright" |}.

(** No marker file of any tool; the venv is a child with another name. *)
Definition host_env_child : posix_host :=
  {| home := "/home/u";
     files := ["/proj/main.py"; "/proj/docs/pyvenv.cfg";
               "/proj/env/pyvenv.cfg"; "/proj/env/bin/python";
               "/proj/venv/bin/python"];
     dirs := ["/"; "/proj"; "/proj/docs"; "/proj/env"; "/proj/env/bin";
              "/proj/venv"; "/proj/venv/bin"];
     listings := [("/proj", ["main.py"; "venv"; "docs"; "env"])];
     commands := [];
     host_sys_path := [];
     host_packages_path := "/home/u/.config/sublime-text/Packages";
     host_package_storage := "/home/u/.cache/sublime-text/Package Storage/LSP-pyright" |}.

Definition proj : WorkspaceFolder := {| folder_name := "proj"; path := "/proj" |}.

(** The editor as it runs plugins: its [Packages] folder is on the
    module search path. *)
Definition host_sublime : posix_host :=
  {| home := "/home/u";
     files := [];
     dirs := ["/"; "/opt/sublime_text/Lib/python38";
              "/home/u/.config/sublime-text/Packages";
              "/home/u/.cache/sublime-text/Package Storage/LSP-pyright/resources/typings/sublime_text"];
     listings := [];
     commands := [];
     host_sys_path := ["/opt/sublime_text/Lib/python33";
                       "/home/u/.config/sublime-text/Packages";
                       "/opt/sublime_text/Lib/python3.3";
                       "/home/u/.config/sublime-text/Lib/python33"];
     host_packages_path := "/home/u/.config/sublime-text/Packages";
     host_package_storage := "/home/u/.cache/sublime-text/Package Storage/LSP-pyright" |}.

(** The same editor installed below a folder whose name the pattern
    rewrites. *)
Definition host_sublime_python38 : posix_host :=
  {| home := "/home/u";
     files := [];
     dirs := ["/"; "/srv/python38/Packages"];
     listings := [];
     commands := [];
     host_sys_path := ["/srv/python38/Lib"; "/srv/python38/Packages"];
     host_packages_path := "/srv/python38/Packages";
     host_package_storage := "/srv/python38/Storage" |}.

(** A home directory with a venv of its own, a project below it whose
    venv sits next to the sources, and a deployed site outside of it. *)
Definition host_tree : posix_host :=
  {| home := "/home/u";
     files := ["/home/u/venv/bin/python"; "/home/u/venv/pyvenv.cfg";
               "/home/u/work/app/venv/bin/python";
               "/home/u/work/app/venv/pyvenv.cfg";
               "/home/u/work/app/setup.py";
               "/home/u/work/app/src/pkg/mod.py";
               "/srv/site/requirements.txt"];
     dirs := ["/"; "/home"; "/home/u"; "/home/u/p"; "/home/u/venv";
              "/home/u/venv/bin"; "/home/u/work"; "/home/u/work/app";
              "/home/u/work/app/venv"; "/home/u/work/app/venv/bin";
              "/home/u/work/app/src"; "/home/u/work/app/src/pkg";
              "/srv"; "/srv/site"; "/srv/site/lib";
              "/srv/a"; "/srv/a/b"; "/srv/a/b/c"];
     listings := [("/home/u/work/app/src", ["pkg"]);
                  ("/home/u/work/app/src/pkg", ["mod.py"]);
                  ("/home/u/p", [])];
     commands := [];
     host_sys_path := [];
     host_packages_path := "/home/u/.config/sublime-text/Packages";
     host_package_storage := "/home/u/.cache/sublime-text/Package Storage/LSP-pyright" |}.

Definition src_folder : WorkspaceFolder :=
  {| folder_name := "src"; path := "/home/u/work/app/src" |}.

(** [Pipfile] is there and [pipenv --py] prints an empty line; the
    project has a [.venv] folder. *)
Definition host_pipenv_silent : posix_host :=
  {| home := "/home/u";
     files := ["/proj/Pipfile";
               "/proj/.venv/pyvenv.cfg"; "/proj/.venv/bin/python"];
     dirs := ["/"; "/proj"; "/proj/.venv"; "/proj/.venv/bin"];
     listings := [("/proj", ["Pipfile"; ".venv"])];
     commands := [("pipenv", Stdout "
")];
     host_sys_path := [];
     host_packages_path := "/home/u/.config/sublime-text/Packages";
     host_package_storage := "/home/u/.cache/sublime-text/Package Storage/LSP-pyright" |}.

(** An editor that runs plugins on Python 3.8, without the deprecated
    plugin-level setting. *)
Definition editor_38 : Editor :=
  {| plugin_settings := []; version_info := (3, 8)%Z |}.

(** Settings that ask for the editor's own environment and already name
    one extra path. *)
Definition settings_sublime : DottedDict :=
  [("pyright", VDict [("dev_environment", VStr "sublime_text")]);
   ("python", VDict [("pythonPath", VStr "/usr/bin/python3");
                     ("analysis", VDict [("extraPaths", VList [VStr "/my/lib"])])])].

(** [Pipfile] and [.python-version] are there, [pipenv] fails and
    [pyenv] answers. *)
Definition host_two_tools : posix_host :=
  {| home := "/home/u";
     files := ["/proj/Pipfile"; "/proj/.python-version";
               "/opt/pyenv/versions/3.9.1/bin/python"];
     dirs := ["/"; "/proj"];
     listings := [("/proj", ["Pipfile"; ".python-version"])];
     commands := [("pipenv", CalledProcessError);
                  ("pyenv", Stdout "/opt/pyenv/versions/3.9.1/bin/python
")];
     host_sys_path := [];
     host_packages_path := "/home/u/.config/sublime-text/Packages";
     host_package_storage := "/home/u/.cache/sublime-text/Package Storage/LSP-pyright" |}.

(* ================================================================== *)
(** ** Running computations *)
(* ================================================================== *)

Lemma run_bind {A B} (m : M A) (k : A -> M B) c a t1 c1 :
  m c = (Ret a, t1, c1) ->
  bind m k c =
  (result_of (k a c1), t1 ++ trace_of (k a c1), cache_of (k a c1)).
Proof.
  intros Hm. unfold bind, result_of, trace_of, cache_of. rewrite Hm.
  destruct (k a c1) as [[o t2] c2]. reflexivity.
Qed.

Lemma run_bind_raise {A B} (m : M A) (k : A -> M B) c e t1 c1 :
  m c = (Raise e, t1, c1) -> bind m k c = (Raise e, t1, c1).
Proof. intros Hm. unfold bind. rewrite Hm. reflexivity. Qed.

Lemma run_eta {A} (r : outcome A * list event * cache) :
  r = (result_of r, trace_of r, cache_of r).
Proof. destruct r as [[o t] c]. reflexivity. Qed.

Lemma run_io_exists w p c :
  io_exists w p c = (Ret (os_path_exists w p), [EvExists p], c).
Proof. reflexivity. Qed.

Lemma run_io_isfile w p c :
  io_isfile w p c = (Ret (os_path_isfile w p), [EvIsfile p], c).
Proof. reflexivity. Qed.

Lemma run_io_check_output w cmd cwd c :
  io_check_output w cmd cwd c =
  (Ret (check_output w cmd cwd), [EvRun cmd cwd (platform w =? "windows")], c).
Proof. reflexivity. Qed.

Lemma run_print line c : print line c = (Ret tt, [EvPrint line], c).
Proof. reflexivity. Qed.

(* ================================================================== *)
(** ** The explicit override (C1) and the folders that count (C10) *)
(* ================================================================== *)

Lemma truthy_nonempty_string s : s <> "" -> truthy (VStr s) = true.
Proof.
  intros Hs. simpl. destruct (String.eqb_spec s ""); [contradiction|reflexivity].
Qed.

(** C1: when the settings hold a non-empty string under
    [python.pythonPath], the resolver returns exactly that string, in
    every world and for every list of folders, and it does nothing else:
    the list of events is empty (no marker file is tested, no command is
    run, no directory is listed) and the memo table is left as it was. *)
Theorem explicit_override_returned_verbatim :
  forall (w : World) (settings : DottedDict)
         (workspace_folders : list WorkspaceFolder) (s : string) (c : cache),
    dotted_get settings "python.pythonPath" = VStr s ->
    s <> "" ->
    resolve_python_path_from_venv w settings workspace_folders c
    = (Ret (VStr s), [], c).
Proof.
  intros w settings folders s c Hget Hs.
  unfold resolve_python_path_from_venv.
  rewrite Hget, (truthy_nonempty_string s Hs). reflexivity.
Qed.

Lemma explicit_override_returned_verbatim_witness :
  resolve_python_path_from_venv (posix_world host_plain)
    [("python", VDict [("pythonPath", VStr "/usr/bin/python3")])]
    [{| folder_name := "w"; path := "/w" |}] []
  = (Ret (VStr "/usr/bin/python3"), [], []).
Proof.
  apply (explicit_override_returned_verbatim (posix_world host_plain)
           [("python", VDict [("pythonPath", VStr "/usr/bin/python3")])]
           [{| folder_name := "w"; path := "/w" |}] "/usr/bin/python3" []).
  - reflexivity.
  - discriminate.
Defined.

(** C10: two non-empty folder lists whose first folders have the same
    path give the same run of the resolver (the same outcome, the same
    events, the same memo table), whatever the settings, the world and
    the other folders are. *)
Theorem resolver_reads_first_folder_only :
  forall (w : World) (settings : DottedDict) (f1 f2 : WorkspaceFolder)
         (rest1 rest2 : list WorkspaceFolder) (c : cache),
    path f1 = path f2 ->
    resolve_python_path_from_venv w settings (f1 :: rest1) c
    = resolve_python_path_from_venv w settings (f2 :: rest2) c.
Proof.
  intros w settings f1 f2 rest1 rest2 c Hpath.
  unfold resolve_python_path_from_venv.
  destruct (truthy (dotted_get settings "python.pythonPath")).
  - reflexivity.
  - rewrite Hpath. reflexivity.
Qed.

Lemma resolver_reads_first_folder_only_witness :
  resolve_python_path_from_venv (posix_world host_plain) []
    [{| folder_name := "w"; path := "/w" |}] []
  = resolve_python_path_from_venv (posix_world host_plain) []
      [{| folder_name := "again"; path := "/w" |};
       {| folder_name := "home"; path := "/home/u" |}] [].
Proof.
  apply (resolver_reads_first_folder_only (posix_world host_plain) []
           {| folder_name := "w"; path := "/w" |}
           {| folder_name := "again"; path := "/w" |}
           [] [{| folder_name := "home"; path := "/home/u" |}] []).
  reflexivity.
Defined.

(* ================================================================== *)
(** ** The project-root test and its memo table (C7) *)
(* ================================================================== *)

Section ProjectRoot.

Variable w : World.

Lemma any_marker_run root names c :
  exists t,
    any_marker w root names c
    = (Ret (existsb (fun name => os_path_exists w (os_path_join w root [name]))
              names), t, c)
    /\ Forall (fun e => exists name,
                 In name names /\ e = EvExists (os_path_join w root [name])) t.
Proof.
  induction names as [|name rest IH]; simpl.
  - exists []. split; [reflexivity|constructor].
  - destruct IH as [t [Hrun Ht]].
    rewrite (run_bind _ _ c _ _ _ (run_io_exists w _ c)).
    unfold join. destruct (os_path_exists w (os_path_join w root [name])); simpl.
    + exists [EvExists (os_path_join w root [name])]. split; [reflexivity|].
      constructor; [|constructor]. exists name. auto.
    + rewrite Hrun. exists (EvExists (os_path_join w root [name]) :: t).
      split; [reflexivity|]. constructor.
      * exists name. auto.
      * eapply Forall_impl; [|exact Ht]. intros e [n [Hn He]]. exists n. auto.
Qed.

(** Two lists with the same names give the same answer. *)
Lemma any_marker_order root names1 names2 c :
  (forall name, In name names1 <-> In name names2) ->
  result_of (any_marker w root names1 c) = result_of (any_marker w root names2 c).
Proof.
  intros Hsame.
  destruct (any_marker_run root names1 c) as [t1 [-> _]].
  destruct (any_marker_run root names2 c) as [t2 [-> _]].
  unfold result_of. simpl. f_equal.
  apply eq_true_iff_eq. rewrite !existsb_exists.
  split; intros [name [Hin Hex]]; exists name; split; try exact Hex;
    apply Hsame; exact Hin.
Qed.

Lemma is_project_root_body_run root c :
  exists t,
    is_project_root_body w root c = (Ret (is_project_root_spec w root), t, c)
    /\ Forall (marker_probe w root) t.
Proof.
  unfold is_project_root_body, is_project_root_spec.
  destruct (root =? USER_HOME w).
  - exists []. split; [reflexivity|constructor].
  - rewrite orb_false_l. apply any_marker_run.
Qed.

Lemma cache_find_ok key c v :
  cache_ok w c = true -> cache_find key c = Some v ->
  v = is_project_root_spec w key.
Proof.
  induction c as [|[k x] rest IH]; simpl; [discriminate|].
  intros Hok Hfind. apply andb_prop in Hok. destruct Hok as [Hx Hrest].
  destruct (String.eqb_spec k key) as [->|_].
  - injection Hfind as <-. apply Bool.eqb_prop. exact Hx.
  - auto.
Qed.

Lemma cache_ok_remove key c :
  cache_ok w c = true -> cache_ok w (cache_remove key c) = true.
Proof.
  unfold cache_ok, cache_remove. rewrite !forallb_forall.
  intros H kv Hin. apply filter_In in Hin. apply H, Hin.
Qed.

Lemma cache_ok_firstn n c :
  cache_ok w c = true -> cache_ok w (firstn n c) = true.
Proof.
  revert c. induction n as [|n IH]; intros [|kv c]; simpl; auto.
  intros H. apply andb_prop in H. destruct H as [H1 H2].
  rewrite H1. simpl. apply IH, H2.
Qed.

Lemma cache_ok_cons key c :
  cache_ok w c = true ->
  cache_ok w ((key, is_project_root_spec w key) :: c) = true.
Proof.
  intros H. simpl. rewrite H. rewrite Bool.eqb_reflx. reflexivity.
Qed.

(** The decorated function computes the same answer as its body and
    keeps the memo table in agreement with the world; a hit causes no
    event at all. *)
Lemma is_project_root_run root c :
  cache_ok w c = true ->
  exists t c',
    is_project_root w root c = (Ret (is_project_root_spec w root), t, c')
    /\ cache_ok w c' = true
    /\ Forall (marker_probe w root) t.
Proof.
  intros Hok. unfold is_project_root, lru_cache.
  destruct (cache_find root c) as [v|] eqn:Hfind.
  - rewrite (cache_find_ok _ _ _ Hok Hfind).
    eexists _, _. split; [reflexivity|]. split; [|constructor].
    apply cache_ok_cons, cache_ok_remove, Hok.
  - destruct (is_project_root_body_run root c) as [t [Hrun Ht]]. rewrite Hrun.
    eexists _, _. split; [reflexivity|]. split; [|exact Ht].
    apply cache_ok_firstn, cache_ok_cons, Hok.
Qed.

(** Whatever the memo table holds, the call returns a boolean. *)
Lemma is_project_root_total root c :
  exists b t c', is_project_root w root c = (Ret b, t, c')
                 /\ Forall (marker_probe w root) t.
Proof.
  unfold is_project_root, lru_cache.
  destruct (cache_find root c) as [v|].
  - eexists _, _, _. split; [reflexivity|constructor].
  - destruct (is_project_root_body_run root c) as [t [Hrun Ht]]. rewrite Hrun.
    eexists _, _, _. split; [reflexivity|exact Ht].
Qed.

Lemma is_project_root_spec_true p :
  is_project_root_spec w p = true <->
  (p = USER_HOME w
   \/ exists name, In name ROOT_FILES
                   /\ os_path_exists w (os_path_join w p [name]) = true).
Proof.
  unfold is_project_root_spec. rewrite orb_true_iff, String.eqb_eq, existsb_exists.
  reflexivity.
Qed.

End ProjectRoot.

(** C7: with a memo table that agrees with the world, [is_project_root p]
    returns [True] exactly when [p] is the home directory or one of the
    marker names exists directly under [p]; it always returns a boolean
    (it raises nothing); and where the children of a missing directory
    are missing too, a path that does not exist and is not the home
    directory gives [False]. *)
Theorem is_project_root_iff_home_or_marker :
  forall (w : World) (c : cache) (p : string),
    cache_ok w c = true ->
    (result_of (is_project_root w p c) = Ret true <->
     (p = USER_HOME w
      \/ exists name, In name ROOT_FILES
                      /\ os_path_exists w (os_path_join w p [name]) = true))
    /\ (exists b, result_of (is_project_root w p c) = Ret b)
    /\ ((forall name, In name ROOT_FILES ->
           os_path_exists w (os_path_join w p [name]) = true ->
           os_path_exists w p = true) ->
        os_path_exists w p = false ->
        p <> USER_HOME w ->
        result_of (is_project_root w p c) = Ret false).
Proof.
  intros w c p Hok.
  destruct (is_project_root_run w p c Hok) as [t [c' [Hrun [_ _]]]].
  rewrite Hrun. unfold result_of. simpl.
  split; [|split].
  - rewrite <- is_project_root_spec_true. split.
    + intros H. injection H as H. exact H.
    + intros H. rewrite H. reflexivity.
  - eexists. reflexivity.
  - intros Hcoh Hmissing Hhome.
    destruct (is_project_root_spec w p) eqn:Hspec; [|reflexivity].
    apply is_project_root_spec_true in Hspec.
    destruct Hspec as [Heq | [name [Hin Hex]]].
    + contradiction.
    + rewrite (Hcoh name Hin Hex) in Hmissing. discriminate.
Qed.

Lemma is_project_root_iff_home_or_marker_witness :
  result_of (is_project_root (posix_world host_plain) "/w" []) = Ret true
  /\ result_of (is_project_root (posix_world host_plain) "/home/u" []) = Ret true
  /\ result_of (is_project_root (posix_world host_plain) "/missing" []) = Ret false.
Proof.
  split; [|split].
  - apply (proj1 (is_project_root_iff_home_or_marker
                    (posix_world host_plain) [] "/w" eq_refl)).
    right. exists "setup.py". split; [simpl; tauto | reflexivity].
  - apply (proj1 (is_project_root_iff_home_or_marker
                    (posix_world host_plain) [] "/home/u" eq_refl)).
    left. reflexivity.
  - apply (proj2 (proj2 (is_project_root_iff_home_or_marker
                           (posix_world host_plain) [] "/missing" eq_refl))).
    + intros name Hin Hex. simpl in Hin.
      repeat (destruct Hin as [<- | Hin]; [vm_compute in Hex; discriminate|]).
      contradiction.
    + reflexivity.
    + discriminate.
Defined.

(* ================================================================== *)
(** ** The tool rules (C2, C6) *)
(* ================================================================== *)

(** C6: in the loop over the rules, when the marker file of a rule is
    there and its command is not installed ([FileNotFoundError]) or exits
    with a non-zero status ([CalledProcessError]), the run is: the test
    of the marker file, the command, one warning line, and then exactly
    the run of the loop on the rules that follow.  The outcome is the
    outcome of that continuation: the failure itself raises nothing and
    ends nothing. *)
Theorem failed_command_continues_with_next_rule :
  forall (w : World) (workspace_folder : string) (r : rule)
         (rest : list rule) (after : M value) (c : cache),
    os_path_isfile w (os_path_join w workspace_folder [config_file r]) = true ->
    let continued := run_rules w workspace_folder rest after c in
    let tested := EvIsfile (os_path_join w workspace_folder [config_file r]) in
    let ran := EvRun (command r) workspace_folder (platform w =? "windows") in
    (check_output w (command r) workspace_folder = FileNotFoundError ->
     run_rules w workspace_folder (r :: rest) after c
     = (result_of continued,
        [tested; ran; EvPrint (warn_not_found w r)] ++ trace_of continued,
        cache_of continued))
    /\ (check_output w (command r) workspace_folder = CalledProcessError ->
        run_rules w workspace_folder (r :: rest) after c
        = (result_of continued,
           [tested; ran; EvPrint (warn_non_zero w r)] ++ trace_of continued,
           cache_of continued)).
Proof.
  intros w wf r rest after c Hfile continued tested ran.
  split; intros Hout; simpl;
    rewrite (run_bind _ _ c _ _ _ (run_io_isfile w _ c));
    unfold join; rewrite Hfile;
    rewrite (run_bind _ _ c _ _ _ (run_io_check_output w _ _ c));
    rewrite Hout;
    rewrite (run_bind _ _ c _ _ _ (run_print _ c));
    reflexivity.
Qed.

Lemma failed_command_continues_with_next_rule_witness :
  resolve_python_path_from_venv (posix_world (host_poetry_missing [])) [] [proj] []
  = (Ret (VStr "/proj/.venv/bin/python"),
     [EvIsfile "/proj/Pipfile";
      EvIsfile "/proj/poetry.lock";
      EvRun ["poetry"; "env"; "info"; "-p"] "/proj" false;
      EvPrint "LSP-pyright: WARN: poetry.lock detected but poetry not found";
      EvIsfile "/proj/.python-version";
      EvIsfile "/proj/venv/pyvenv.cfg";
      EvIsfile "/proj/.venv/pyvenv.cfg";
      EvIsfile "/proj/.venv/bin/python"],
     []).
Proof.
  set (w := posix_world (host_poetry_missing [])).
  set (poetry := {| config_file := "poetry.lock";
                    command_head := "poetry";
                    command_args := ["env"; "info"; "-p"];
                    post_processing := Some (binary_from_python_path w) |}).
  set (pyenv := {| config_file := ".python-version";
                   command_head := "pyenv";
                   command_args := ["which"; "python"];
                   post_processing := None |}).
  change (resolve_python_path_from_venv w [] [proj] [])
    with (bind (io_isfile w "/proj/Pipfile")
            (fun _ => run_rules w "/proj" [poetry; pyenv]
                        (search_subfolders w "/proj")) []).
  rewrite (run_bind _ _ [] _ _ _ (run_io_isfile w _ [])).
  rewrite (proj1 (failed_command_continues_with_next_rule w "/proj" poetry
                    [pyenv] (search_subfolders w "/proj") [] eq_refl) eq_refl).
  reflexivity.
Defined.

Example nonzero_exit_continues :
  resolve_python_path_from_venv
    (posix_world (host_poetry_missing [("poetry", CalledProcessError)])) [] [proj] []
  = (Ret (VStr "/proj/.venv/bin/python"),
     [EvIsfile "/proj/Pipfile";
      EvIsfile "/proj/poetry.lock";
      EvRun ["poetry"; "env"; "info"; "-p"] "/proj" false;
      EvPrint "LSP-pyright: WARN: poetry.lock detected but poetry env info -p exited with non-zero exit status";
      EvIsfile "/proj/.python-version";
      EvIsfile "/proj/venv/pyvenv.cfg";
      EvIsfile "/proj/.venv/pyvenv.cfg";
      EvIsfile "/proj/.venv/bin/python"],
     []).
Proof. reflexivity. Qed.

(** When the command of a rule succeeds and the post-processing of the
    rule gives nothing, the loop returns [None] at once: the rules that
    follow and the rest of the function are not run. *)
Lemma post_processing_absent_returns w workspace_folder r rest after c
      post text t :
  os_path_isfile w (os_path_join w workspace_folder [config_file r]) = true ->
  check_output w (command r) workspace_folder = Stdout text ->
  post_processing r = Some post ->
  post (strip text) c = (Ret None, t, c) ->
  run_rules w workspace_folder (r :: rest) after c
  = (Ret VNone,
     [EvIsfile (os_path_join w workspace_folder [config_file r]);
      EvRun (command r) workspace_folder (platform w =? "windows")] ++ t,
     c).
Proof.
  intros Hfile Hout Hpost Hnone. simpl.
  rewrite (run_bind _ _ c _ _ _ (run_io_isfile w _ c)).
  unfold join. rewrite Hfile.
  rewrite (run_bind _ _ c _ _ _ (run_io_check_output w _ _ c)).
  rewrite Hout, Hpost.
  rewrite (run_bind _ _ c _ _ _ Hnone).
  unfold result_of, trace_of, cache_of, ret. simpl.
  rewrite app_nil_r. reflexivity.
Qed.

(** C2, at the failing input: [poetry.lock] is present, [poetry] prints
    an environment root without [bin/python] in it.  The resolver returns
    [None] right after the post-processing test: [.python-version] is
    never tested and [pyenv] never run, although it would have answered,
    and the [.venv] folder of the project is never looked at. *)
Theorem post_processing_absent_ends_resolution :
  resolve_python_path_from_venv (posix_world host_poetry_broken) [] [proj] []
  = (Ret VNone,
     [EvIsfile "/proj/Pipfile";
      EvIsfile "/proj/poetry.lock";
      EvRun ["poetry"; "env"; "info"; "-p"] "/proj" false;
      EvIsfile "/envs/proj-py3.9/bin/python"],
     [])
  /\ result_of
       (run_rules (posix_world host_poetry_broken) "/proj"
          (tl (tl (venv_config_files (posix_world host_poetry_broken))))
          (search_subfolders (posix_world host_poetry_broken) "/proj") [])
     = Ret (VStr "/opt/pyenv/versions/3.9.1/bin/python").
Proof. split; reflexivity. Qed.

(* ================================================================== *)
(** ** The search among the children of the folder (C5) *)
(* ================================================================== *)

Section Subfolders.

Variable w : World.

Lemma binary_from_python_path_run dir c :
  binary_from_python_path w dir c
  = (Ret (if os_path_isfile w (binary_path w dir)
          then Some (binary_path w dir) else None),
     [EvIsfile (binary_path w dir)], c).
Proof.
  unfold binary_from_python_path, binary_path, join.
  destruct (platform w =? "windows"); reflexivity.
Qed.

Lemma binary_from_venv_run root child c :
  exists t,
    binary_from_venv w root child c
    = (Ret (if valid_venv w root child
            then Some (binary_path w (os_path_join w root [child]))
            else None), t, c)
    /\ (t = [EvIsfile (os_path_join w root [child; "pyvenv.cfg"])]
        \/ t = [EvIsfile (os_path_join w root [child; "pyvenv.cfg"]);
                EvIsfile (binary_path w (os_path_join w root [child]))]).
Proof.
  unfold binary_from_venv, valid_venv.
  rewrite (run_bind _ _ c _ _ _ (run_io_isfile w _ c)). unfold join.
  destruct (os_path_isfile w (os_path_join w root [child; "pyvenv.cfg"])).
  - rewrite binary_from_python_path_run. eexists. split; [reflexivity|].
    right. reflexivity.
  - eexists. split; [reflexivity|]. left. reflexivity.
Qed.

(** A loop over candidate children returns the interpreter of the first
    valid child that is not skipped, and goes on with the rest of the
    function when there is none. *)
Lemma search_children_run root skip files after c :
  exists t,
    search_children w root skip files after c
    = match find (valid_venv w root)
              (filter (fun file => negb (skip file)) files) with
      | Some child =>
          (Ret (VStr (binary_path w (os_path_join w root [child]))), t, c)
      | None =>
          (result_of (after c), t ++ trace_of (after c), cache_of (after c))
      end.
Proof.
  induction files as [|file rest IH]; simpl.
  - exists []. apply run_eta.
  - destruct (skip file); simpl; [exact IH|].
    destruct (binary_from_venv_run root file c) as [t1 [Hrun _]].
    rewrite (run_bind _ _ c _ _ _ Hrun).
    destruct (valid_venv w root file).
    + exists (t1 ++ []). reflexivity.
    + destruct IH as [t2 IH]. rewrite IH.
      destruct (find (valid_venv w root)
                  (filter (fun file0 => negb (skip file0)) rest)).
      * exists (t1 ++ t2). reflexivity.
      * exists (t1 ++ t2). unfold result_of, trace_of, cache_of. simpl.
        rewrite app_assoc. reflexivity.
Qed.

Lemma run_io_listdir p names c :
  os_listdir w p = Some names ->
  io_listdir w p c = (Ret names, [EvListdir p], c).
Proof.
  intros H. unfold io_listdir, bind, emit. rewrite H. reflexivity.
Qed.

Lemma find_app {A} (f : A -> bool) (l1 l2 : list A) :
  find f (l1 ++ l2)
  = match find f l1 with Some x => Some x | None => find f l2 end.
Proof.
  induction l1 as [|x l1 IH]; simpl; [reflexivity|].
  destruct (f x); [reflexivity|exact IH].
Qed.

Lemma search_subfolders_result workspace_folder names c :
  os_listdir w workspace_folder = Some names ->
  result_of (search_subfolders w workspace_folder c)
  = Ret (first_valid_child w workspace_folder names)
  /\ cache_of (search_subfolders w workspace_folder c) = c.
Proof.
  intros Hlist. unfold search_subfolders, first_valid_child, candidates.
  rewrite find_app.
  match goal with
  | |- context [search_children w ?r ?s ?f ?a c] =>
      destruct (search_children_run r s f a c) as [t1 Hrun]
  end.
  rewrite Hrun. clear Hrun.
  cbn [filter negb].
  destruct (find (valid_venv w workspace_folder) ["venv"; ".venv"]);
    [split; reflexivity|].
  rewrite (run_bind _ _ c _ _ _ (run_io_listdir _ _ c Hlist)).
  match goal with
  | |- context [search_children w ?r ?s ?f ?a c] =>
      destruct (search_children_run r s f a c) as [t2 Hrun]
  end.
  rewrite Hrun. clear Hrun.
  destruct (find (valid_venv w workspace_folder)
              (filter (fun file => negb (is_venv_name file)) names));
    split; reflexivity.
Qed.

(** Rules that produce nothing leave the outcome to the rest of the
    function. *)
Lemma run_rules_nothing workspace_folder rules after c :
  forallb (rule_gives_nothing w workspace_folder) rules = true ->
  exists t,
    run_rules w workspace_folder rules after c
    = (result_of (after c), t ++ trace_of (after c), cache_of (after c)).
Proof.
  induction rules as [|r rest IH]; simpl.
  - intros _. exists []. apply run_eta.
  - intros H. apply andb_prop in H. destruct H as [Hr Hrest].
    destruct (IH Hrest) as [t IHt]. clear IH.
    rewrite (run_bind _ _ c _ _ _ (run_io_isfile w _ c)). unfold join.
    unfold rule_gives_nothing in Hr.
    destruct (os_path_isfile w (os_path_join w workspace_folder [config_file r])).
    + simpl in Hr.
      rewrite (run_bind _ _ c _ _ _ (run_io_check_output w _ _ c)).
      destruct (check_output w (command r) workspace_folder);
        try discriminate;
        rewrite (run_bind _ _ c _ _ _ (run_print _ c)); rewrite IHt;
        eexists (_ :: _ :: _ :: t); reflexivity.
    + rewrite IHt. eexists (_ :: t). reflexivity.
Qed.

End Subfolders.

(** C5: when no override is set and every tool rule produced nothing,
    the resolver returns what the search among the children of the first
    workspace folder gives: going through [venv], [.venv] and then the
    other listed children in the order of the listing, the interpreter
    path of the first child that holds both [pyvenv.cfg] and the
    interpreter of the platform, and [None] when no child does. *)
Theorem subfolder_search_returns_first_valid_child :
  forall (w : World) (settings : DottedDict) (first : WorkspaceFolder)
         (others : list WorkspaceFolder) (names : list string) (c : cache),
    truthy (dotted_get settings "python.pythonPath") = false ->
    forallb (rule_gives_nothing w (path first)) (venv_config_files w) = true ->
    os_listdir w (path first) = Some names ->
    result_of (resolve_python_path_from_venv w settings (first :: others) c)
    = Ret (first_valid_child w (path first) names).
Proof.
  intros w settings first others names c Hoverride Hrules Hlist.
  unfold resolve_python_path_from_venv. rewrite Hoverride.
  destruct (run_rules_nothing w (path first) (venv_config_files w)
              (search_subfolders w (path first)) c Hrules) as [t Hrun].
  rewrite Hrun.
  apply (search_subfolders_result w (path first) names c Hlist).
Qed.

Lemma subfolder_search_returns_first_valid_child_witness :
  result_of (resolve_python_path_from_venv (posix_world host_env_child) []
               [proj] [])
  = Ret (VStr "/proj/env/bin/python").
Proof.
  apply (subfolder_search_returns_first_valid_child
           (posix_world host_env_child) [] proj []
           ["main.py"; "venv"; "docs"; "env"] []).
  - reflexivity.
  - reflexivity.
  - reflexivity.
Defined.

Example dot_venv_scenario :
  result_of (resolve_python_path_from_venv
               (posix_world (host_poetry_missing [])) [] [proj] [])
  = Ret (VStr "/proj/.venv/bin/python").
Proof. reflexivity. Qed.

(* ================================================================== *)
(** ** The dependency directories (C9) *)
(* ================================================================== *)

Lemma keep_dirs_run w dep_dirs c :
  keep_dirs w dep_dirs c
  = (Ret (filter (os_path_isdir w) dep_dirs), map EvIsdir dep_dirs, c).
Proof.
  induction dep_dirs as [|p rest IH]; simpl; [reflexivity|].
  rewrite (run_bind _ _ c (os_path_isdir w p) [EvIsdir p] c eq_refl).
  rewrite (run_bind _ _ c _ _ _ IH).
  unfold result_of, trace_of, cache_of, ret. simpl. rewrite app_nil_r.
  destruct (os_path_isdir w p); reflexivity.
Qed.

Lemma list_remove_some x l :
  In x l -> exists l', list_remove x l = Some l'.
Proof.
  induction l as [|y rest IH]; simpl; [contradiction|].
  intros Hin. destruct (String.eqb_spec y x) as [_|Hne].
  - eexists. reflexivity.
  - destruct Hin as [Heq|Hin]; [contradiction|].
    destruct (IH Hin) as [l' ->]. eexists. reflexivity.
Qed.

Lemma list_remove_none x l : ~ In x l -> list_remove x l = None.
Proof.
  induction l as [|y rest IH]; simpl; [reflexivity|].
  intros Hnin. destruct (String.eqb_spec y x) as [Heq|_].
  - exfalso. apply Hnin. left. exact Heq.
  - rewrite IH; [reflexivity|]. intros H. apply Hnin. right. exact H.
Qed.

(** C9 as stated fails: with a module search path that does not hold the
    [Packages] folder, [dep_dirs.remove(packages_path)] raises
    [ValueError] and nothing is returned. *)
Lemma find_package_dependency_dirs_may_raise :
  ~ (forall (w : World) (py_ver : Z * Z) (c : cache),
       exists dirs,
         result_of (find_package_dependency_dirs w py_ver c) = Ret dirs
         /\ Forall (fun p => os_path_isdir w p = true) dirs).
Proof.
  intros H.
  destruct (H (posix_world host_plain) (3, 8)%Z []) as [dirs [Hres _]].
  vm_compute in Hres. discriminate.
Qed.

(** The rewriting can itself remove the [Packages] folder from the list:
    the folder is on the search path, its name matches the pattern, and
    the call for version 3.3 raises. *)
Example find_package_dependency_dirs_rewrites_packages_path :
  In (packages_path (posix_world host_sublime_python38))
     (sys_path (posix_world host_sublime_python38))
  /\ find_package_dependency_dirs (posix_world host_sublime_python38) (3, 3)%Z []
     = (Raise ValueError, [], []).
Proof. split; [simpl; tauto | reflexivity]. Qed.

(** C9, amended: when the rewritten module search path holds the
    [Packages] folder, the call returns a list, raises nothing, leaves
    the memo table alone, and every path of the list is an existing
    directory; when it does not, the call raises [ValueError]. *)
Theorem find_package_dependency_dirs_returns_directories :
  forall (w : World) (py_ver : Z * Z) (c : cache),
    (In (packages_path w) (rewritten_sys_path w py_ver) ->
     exists dirs t,
       find_package_dependency_dirs w py_ver c = (Ret dirs, t, c)
       /\ Forall (fun p => os_path_isdir w p = true) dirs)
    /\ (~ In (packages_path w) (rewritten_sys_path w py_ver) ->
        find_package_dependency_dirs w py_ver c = (Raise ValueError, [], c)).
Proof.
  intros w py_ver c. unfold find_package_dependency_dirs, rewritten_sys_path.
  split; intros Hin.
  - destruct (list_remove_some _ _ Hin) as [l' ->].
    rewrite keep_dirs_run. eexists _, _. split; [reflexivity|].
    apply Forall_forall. intros p Hp. apply filter_In in Hp. apply Hp.
  - rewrite (list_remove_none _ _ Hin). reflexivity.
Qed.

Example find_package_dependency_dirs_sublime :
  result_of (find_package_dependency_dirs (posix_world host_sublime) (3, 8)%Z [])
  = Ret ["/home/u/.cache/sublime-text/Package Storage/LSP-pyright/resources/typings/sublime_text";
         "/opt/sublime_text/Lib/python38";
         "/home/u/.config/sublime-text/Packages"].
Proof. reflexivity. Qed.

(* ================================================================== *)
(** ** [posixpath.dirname] and the depth of a path *)
(* ================================================================== *)

Module posix_facts.
Import posixpath.

Lemma head_of_empty_depth p : head_of p = "" -> depth p = 0.
Proof.
  induction p as [|c r IH]; simpl; [reflexivity|].
  destruct (head_of r) eqn:Hr.
  - destruct (Ascii.eqb c "/"); [discriminate|]. intros _. apply IH. reflexivity.
  - discriminate.
Qed.

Lemma depth_head_of p : depth (head_of p) = depth p.
Proof.
  induction p as [|c r IH]; simpl; [reflexivity|].
  destruct (head_of r) eqn:Hr.
  - rewrite (head_of_empty_depth r Hr).
    destruct (Ascii.eqb c "/") eqn:Hc; simpl; reflexivity.
  - simpl in *. rewrite IH. reflexivity.
Qed.

(** The head ends with a separator, so stripping removes at least one. *)
Lemma depth_rstrip_head p :
  head_of p <> "" -> depth (rstrip_sep (head_of p)) < depth (head_of p).
Proof.
  induction p as [|c r IH]; simpl; [congruence|].
  destruct (head_of r) as [|a h] eqn:Hr.
  - destruct (Ascii.eqb c "/") eqn:Hc; [|congruence].
    intros _. simpl. lia.
  - intros _. assert (IH' := IH ltac:(discriminate)). clear IH.
    change (rstrip_sep (String c (String a h)))
      with (match rstrip_sep (String a h) with
            | EmptyString => if Ascii.eqb c "/" then "" else String c ""
            | t => String c t
            end).
    change (depth (String c (String a h)))
      with ((if Ascii.eqb c "/" then 1 else 0) + depth (String a h)).
    destruct (rstrip_sep (String a h)) as [|b t].
    + change (depth "") with 0 in IH'.
      destruct (Ascii.eqb c "/") eqn:Hc; cbv iota.
      * change (depth "") with 0. lia.
      * change (depth (String c "")) with ((if Ascii.eqb c "/" then 1 else 0) + 0).
        rewrite Hc. lia.
    + change (depth (String c (String b t)))
        with ((if Ascii.eqb c "/" then 1 else 0) + depth (String b t)).
      lia.
Qed.

Lemma head_of_all_sep s : all_sep s = true -> head_of s = s.
Proof.
  induction s as [|c r IH]; simpl; [reflexivity|].
  intros H. apply andb_prop in H. destruct H as [Hc Hr].
  rewrite (IH Hr). apply Ascii.eqb_eq in Hc. subst c.
  destruct r; reflexivity.
Qed.

Lemma dirname_all_sep s : all_sep s = true -> dirname s = s.
Proof.
  intros H. unfold dirname. rewrite (head_of_all_sep s H), H.
  rewrite andb_false_r. reflexivity.
Qed.

(** One step up either removes a separator, or lands on a path that is
    its own parent. *)
Lemma dirname_cases p :
  depth (dirname p) < depth p \/ dirname (dirname p) = dirname p.
Proof.
  assert (Hd : dirname p
               = if negb (head_of p =? "") && negb (all_sep (head_of p))
                 then rstrip_sep (head_of p) else head_of p) by reflexivity.
  destruct (head_of p =? "") eqn:Hempty; simpl in Hd.
  - right. apply String.eqb_eq in Hempty. rewrite Hd, Hempty. reflexivity.
  - destruct (all_sep (head_of p)) eqn:Hall; simpl in Hd.
    + right. rewrite Hd. apply dirname_all_sep, Hall.
    + left. rewrite Hd, <- (depth_head_of p). apply depth_rstrip_head.
      intros H. rewrite H in Hempty. discriminate.
Qed.

End posix_facts.

(* ================================================================== *)
(** ** The upward walk: termination (C8) *)
(* ================================================================== *)

Section Walk.

Variable w : World.

Lemma venv_path_run root c :
  _venv_path w root "venv" c
  = (Ret (if os_path_exists w (venv_probe w root)
          then Some (venv_probe w root) else None),
     [EvExists (venv_probe w root)], c).
Proof.
  unfold _venv_path, venv_probe, join.
  rewrite (run_bind _ _ c _ _ _ (run_io_exists w _ c)).
  destruct (os_path_exists w _); reflexivity.
Qed.

(** One round of the loop, given what the project-root test answers. *)
Lemma find_venv_loop_round fuel root c is_root t c1 :
  is_project_root w root c = (Ret is_root, t, c1) ->
  find_venv_loop w (S fuel) root c
  = if os_path_exists w (venv_probe w root)
    then (Ret (Some (Some (venv_probe w root))),
          [EvExists (venv_probe w root)], c)
    else if is_root
    then (Ret (Some None), EvExists (venv_probe w root) :: t, c1)
    else if (String.length root <=? String.length (os_path_dirname w root))%nat
            || (os_path_dirname w root =? USER_HOME w)
    then (Ret (Some None), EvExists (venv_probe w root) :: t, c1)
    else after_events (EvExists (venv_probe w root) :: t)
           (find_venv_loop w fuel (os_path_dirname w root) c1).
Proof.
  intros Hroot. simpl.
  rewrite (run_bind _ _ c _ _ _ (venv_path_run root c)).
  destruct (os_path_exists w (venv_probe w root)); [reflexivity|].
  rewrite (run_bind _ _ c _ _ _ Hroot).
  destruct is_root.
  - unfold result_of, trace_of, cache_of, ret. simpl.
    rewrite app_nil_r. reflexivity.
  - destruct ((String.length root <=? String.length (os_path_dirname w root))%nat
              || (os_path_dirname w root =? USER_HOME w)).
    + unfold result_of, trace_of, cache_of, ret. simpl.
      rewrite app_nil_r. reflexivity.
    + unfold after_events.
      destruct (find_venv_loop w fuel (os_path_dirname w root) c1) as [[o t2] c2].
      reflexivity.
Qed.

Lemma after_events_returns {A} (t : list event)
      (r : outcome A * list event * cache) a t2 c2 :
  r = (Ret a, t2, c2) -> after_events t r = (Ret a, t ++ t2, c2).
Proof. intros ->. reflexivity. Qed.

(** Each round that goes on shortens the path: a number of rounds above
    the length of the start path is enough, in every world. *)
Lemma find_venv_loop_returns fuel :
  forall root c,
    String.length root < fuel ->
    exists r t c', find_venv_loop w fuel root c = (Ret (Some r), t, c').
Proof.
  induction fuel as [|fuel IH]; intros root c Hlen; [lia|].
  destruct (is_project_root_total w root c) as [b [t [c1 [Hroot _]]]].
  rewrite (find_venv_loop_round fuel root c b t c1 Hroot).
  destruct (os_path_exists w (venv_probe w root)); [eauto|].
  destruct b; [eauto|].
  destruct (Nat.leb_spec (String.length root)
              (String.length (os_path_dirname w root))) as [Hle|Hlt];
    simpl; [eauto|].
  destruct (os_path_dirname w root =? USER_HOME w); [eauto|].
  destruct (IH (os_path_dirname w root) c1 ltac:(lia)) as [r [t2 [c2 Hrec]]].
  rewrite (after_events_returns _ _ _ _ _ Hrec). eauto.
Qed.

(** A path that is not longer than its parent ends the walk in the
    round that looks at it. *)
Lemma find_venv_loop_no_progress fuel root c :
  String.length root <= String.length (os_path_dirname w root) ->
  exists r t c', find_venv_loop w (S fuel) root c = (Ret (Some r), t, c').
Proof.
  intros Hle.
  destruct (is_project_root_total w root c) as [b [t [c1 [Hroot _]]]].
  rewrite (find_venv_loop_round fuel root c b t c1 Hroot).
  destruct (os_path_exists w (venv_probe w root)); [eauto|].
  destruct b; [eauto|].
  apply Nat.leb_le in Hle. rewrite Hle. simpl. eauto.
Qed.

(** With [posixpath.dirname], two rounds more than the depth of the
    start path are enough. *)
Lemma find_venv_loop_returns_posix :
  os_path_dirname w = posixpath.dirname ->
  forall n root c,
    depth root <= n ->
    exists r t c', find_venv_loop w (n + 2) root c = (Ret (Some r), t, c').
Proof.
  intros Hposix. induction n as [|n IH]; intros root c Hdepth.
  - destruct (is_project_root_total w root c) as [b [t [c1 [Hroot _]]]].
    change (0 + 2) with (S 1).
    rewrite (find_venv_loop_round 1 root c b t c1 Hroot).
    destruct (os_path_exists w (venv_probe w root)); [eauto|].
    destruct b; [eauto|].
    destruct (_ || _); [eauto|].
    destruct (posix_facts.dirname_cases root) as [Hlt|Hfix]; [lia|].
    destruct (find_venv_loop_no_progress 0 (os_path_dirname w root) c1)
      as [r [t2 [c2 Hrec]]].
    { rewrite Hposix, Hfix. lia. }
    rewrite (after_events_returns _ _ _ _ _ Hrec). eauto.
  - destruct (is_project_root_total w root c) as [b [t [c1 [Hroot _]]]].
    change (S n + 2) with (S (n + 2)).
    rewrite (find_venv_loop_round (n + 2) root c b t c1 Hroot).
    destruct (os_path_exists w (venv_probe w root)); [eauto|].
    destruct b; [eauto|].
    destruct (_ || _); [eauto|].
    destruct (posix_facts.dirname_cases root) as [Hlt|Hfix].
    + destruct (IH (os_path_dirname w root) c1) as [r [t2 [c2 Hrec]]].
      { rewrite Hposix. lia. }
      rewrite (after_events_returns _ _ _ _ _ Hrec). eauto.
    + replace (n + 2) with (S (n + 1)) by lia.
      destruct (find_venv_loop_no_progress (n + 1) (os_path_dirname w root) c1)
        as [r [t2 [c2 Hrec]]].
      { rewrite Hposix, Hfix. lia. }
      rewrite (after_events_returns _ _ _ _ _ Hrec). eauto.
Qed.

Lemma after_events_inv {A} (t : list event)
      (r : outcome A * list event * cache) a t' c' :
  after_events t r = (Ret a, t', c') ->
  exists t2, r = (Ret a, t2, c') /\ t' = t ++ t2.
Proof.
  destruct r as [[o t2] c2]. unfold after_events, result_of, trace_of, cache_of.
  simpl. intros H. injection H as -> <- ->. eauto.
Qed.

(** Once the loop has returned, more rounds change nothing. *)
Lemma find_venv_loop_more_fuel fuel :
  forall root c r t c',
    find_venv_loop w fuel root c = (Ret (Some r), t, c') ->
    forall k, find_venv_loop w (fuel + k) root c = (Ret (Some r), t, c').
Proof.
  induction fuel as [|fuel IH]; intros root c r t c' Hrun k.
  - simpl in Hrun. discriminate.
  - destruct (is_project_root_total w root c) as [b [t1 [c1 [Hroot _]]]].
    change (S fuel + k) with (S (fuel + k)).
    rewrite (find_venv_loop_round fuel root c b t1 c1 Hroot) in Hrun.
    rewrite (find_venv_loop_round (fuel + k) root c b t1 c1 Hroot).
    destruct (os_path_exists w (venv_probe w root)); [exact Hrun|].
    destruct b; [exact Hrun|].
    destruct (_ || _); [exact Hrun|].
    apply after_events_inv in Hrun. destruct Hrun as [t2 [Hrec ->]].
    rewrite (after_events_returns _ _ _ _ _ (IH _ _ _ _ _ Hrec k)).
    reflexivity.
Qed.

Lemma find_venv_loop_fuel_independent fuel1 fuel2 root c r1 t1 c1 r2 t2 c2 :
  find_venv_loop w fuel1 root c = (Ret (Some r1), t1, c1) ->
  find_venv_loop w fuel2 root c = (Ret (Some r2), t2, c2) ->
  (r1, t1, c1) = (r2, t2, c2).
Proof.
  intros H1 H2.
  apply (find_venv_loop_more_fuel _ _ _ _ _ _) with (k := fuel2) in H1.
  apply (find_venv_loop_more_fuel _ _ _ _ _ _) with (k := fuel1) in H2.
  rewrite (Nat.add_comm fuel2 fuel1) in H2. rewrite H1 in H2.
  injection H2 as -> -> ->. reflexivity.
Qed.

(** [_find_venv] on an existing start path is the loop, with any number
    of rounds that lets the loop return. *)
Lemma find_venv_is_loop fuel root c r t c' :
  os_path_lexists w root = true ->
  find_venv_loop w fuel root c = (Ret (Some r), t, c') ->
  _find_venv w root c = (Ret r, EvLexists root :: t, c').
Proof.
  intros Hex Hrun. unfold _find_venv.
  rewrite (run_bind _ _ c (os_path_lexists w root) [EvLexists root] c eq_refl).
  rewrite Hex.
  change (if negb true then ?a else ?b) with b.
  destruct (find_venv_loop_returns (S (String.length root)) root c
              ltac:(lia)) as [r0 [t0 [c0 Hrun0]]].
  rewrite (run_bind _ _ c _ _ _ Hrun0).
  assert (Heq := find_venv_loop_fuel_independent _ _ _ _ _ _ _ _ _ _ Hrun0 Hrun).
  injection Heq as -> -> ->.
  unfold result_of, trace_of, cache_of, ret. simpl. rewrite app_nil_r.
  reflexivity.
Qed.

Lemma find_venv_missing root c :
  os_path_lexists w root = false ->
  _find_venv w root c = (Ret None, [EvLexists root], c).
Proof.
  intros Hex. unfold _find_venv.
  rewrite (run_bind _ _ c (os_path_lexists w root) [EvLexists root] c eq_refl).
  rewrite Hex. reflexivity.
Qed.

Lemma find_venv_total root c :
  exists venv t c', _find_venv w root c = (Ret venv, t, c').
Proof.
  destruct (os_path_lexists w root) eqn:Hex.
  - destruct (find_venv_loop_returns (S (String.length root)) root c
                ltac:(lia)) as [r [t [c' Hrun]]].
    rewrite (find_venv_is_loop _ _ _ _ _ _ Hex Hrun). eauto.
  - rewrite (find_venv_missing root c Hex). eauto.
Qed.

End Walk.

(** C8: [_find_venv] always returns, and raises nothing.  A start path
    that does not exist gives [None] after the one existence test.  The
    loop returns within a number of rounds bounded by the start path: in
    every world within its length plus one, and with [posixpath.dirname]
    within its depth (its number of separators) plus two; the value of
    [_find_venv] is the value the loop returns there.  In a round where
    the directory has no venv and is not a project root, the loop
    returns [None] as soon as the parent is not strictly shorter than
    the directory or is the home directory. *)
Theorem find_venv_terminates_within_depth :
  forall (w : World) (root : string) (c : cache),
    (os_path_lexists w root = false ->
     _find_venv w root c = (Ret None, [EvLexists root], c))
    /\ (exists venv t c', _find_venv w root c = (Ret venv, t, c'))
    /\ (forall fuel,
          String.length root < fuel ->
          exists r t c',
            find_venv_loop w fuel root c = (Ret (Some r), t, c')
            /\ (os_path_lexists w root = true ->
                _find_venv w root c = (Ret r, EvLexists root :: t, c')))
    /\ (os_path_dirname w = posixpath.dirname ->
        forall fuel,
          depth root + 2 <= fuel ->
          exists r t c',
            find_venv_loop w fuel root c = (Ret (Some r), t, c')
            /\ (os_path_lexists w root = true ->
                _find_venv w root c = (Ret r, EvLexists root :: t, c')))
    /\ (forall fuel t c1,
          os_path_exists w (venv_probe w root) = false ->
          is_project_root w root c = (Ret false, t, c1) ->
          (String.length root <= String.length (os_path_dirname w root)
           \/ os_path_dirname w root = USER_HOME w) ->
          find_venv_loop w (S fuel) root c
          = (Ret (Some None), EvExists (venv_probe w root) :: t, c1)).
Proof.
  intros w root c. repeat split.
  - apply find_venv_missing.
  - apply find_venv_total.
  - intros fuel Hfuel.
    destruct (find_venv_loop_returns w fuel root c Hfuel) as [r [t [c' Hrun]]].
    exists r, t, c'. split; [exact Hrun|].
    intros Hex. exact (find_venv_is_loop w fuel root c r t c' Hex Hrun).
  - intros Hposix fuel Hfuel.
    destruct (find_venv_loop_returns_posix w Hposix (depth root) root c
                (Nat.le_refl _)) as [r [t [c' Hrun]]].
    apply (find_venv_loop_more_fuel w _ _ _ _ _ _) with (k := fuel - (depth root + 2))
      in Hrun.
    replace (depth root + 2 + (fuel - (depth root + 2))) with fuel in Hrun by lia.
    exists r, t, c'. split; [exact Hrun|].
    intros Hex. exact (find_venv_is_loop w fuel root c r t c' Hex Hrun).
  - intros fuel t c1 Hvenv Hroot Hguard.
    rewrite (find_venv_loop_round w fuel root c false t c1 Hroot), Hvenv.
    destruct Hguard as [Hle | Hhome].
    + apply Nat.leb_le in Hle. rewrite Hle. reflexivity.
    + apply String.eqb_eq in Hhome. rewrite Hhome, orb_true_r. reflexivity.
Qed.

Lemma find_venv_terminates_within_depth_witness :
  depth "/srv/a/b/c" = 4
  /\ exists r t c',
       find_venv_loop (posix_world host_tree) 6 "/srv/a/b/c" [] = (Ret (Some r), t, c')
       /\ _find_venv (posix_world host_tree) "/srv/a/b/c" []
          = (Ret r, EvLexists "/srv/a/b/c" :: t, c').
Proof.
  split; [reflexivity|].
  destruct (proj1 (proj2 (proj2 (proj2
              (find_venv_terminates_within_depth (posix_world host_tree)
                 "/srv/a/b/c" [])))) eq_refl 6 (Nat.le_refl 6))
    as [r [t [c' [Hloop Hfind]]]].
  exists r, t, c'. split; [exact Hloop | exact (Hfind eq_refl)].
Defined.

Example walk_stops_below_home :
  result_of (_find_venv (posix_world host_tree) "/home/u/p" []) = Ret None
  /\ map (fun kv => fst kv)
       (cache_of (_find_venv (posix_world host_tree) "/srv/a/b/c" []))
     = ["/"; "/srv"; "/srv/a"; "/srv/a/b"; "/srv/a/b/c"].
Proof. split; reflexivity. Qed.

(* ================================================================== *)
(** ** The upward walk: what it returns (C4) *)
(* ================================================================== *)

Lemma up_succ w n root :
  up w (S n) root = up w n (os_path_dirname w root).
Proof. unfold up. apply Nat.iter_succ_r. Qed.

Lemma walk_continues_true w root :
  walk_continues w root = true ->
  os_path_exists w (venv_probe w root) = false
  /\ is_project_root_spec w root = false
  /\ (String.length root <=? String.length (os_path_dirname w root))%nat
     || (os_path_dirname w root =? USER_HOME w) = false.
Proof.
  unfold walk_continues. intros H.
  apply andb_prop in H. destruct H as [H H3].
  apply andb_prop in H. destruct H as [H1 H2].
  apply negb_true_iff in H1, H2, H3. auto.
Qed.

(** The loop, followed from [root] to the first directory where the walk
    does not go on. *)
Lemma find_venv_loop_walk w n :
  forall root c fuel,
    cache_ok w c = true ->
    String.length root < fuel ->
    (forall i, i < n -> walk_continues w (up w i root) = true) ->
    walk_continues w (up w n root) = false ->
    exists t c',
      find_venv_loop w fuel root c
      = (Ret (Some (if os_path_exists w (venv_probe w (up w n root))
                    then Some (venv_probe w (up w n root)) else None)), t, c')
      /\ cache_ok w c' = true
      /\ Forall (fun e => exists i, i <= n /\ round_event w (up w i root) e) t.
Proof.
  induction n as [|n IH]; intros root c fuel Hok Hfuel Hbelow Htop;
    (destruct fuel as [|fuel]; [lia|]);
    destruct (is_project_root_run w root c Hok) as [t [c1 [Hroot [Hok1 Ht]]]];
    rewrite (find_venv_loop_round w fuel root c _ t c1 Hroot).
  - change (up w 0 root) with root in *.
    assert (Hev : Forall (fun e => exists i, i <= 0 /\ round_event w (up w i root) e)
                    (EvExists (venv_probe w root) :: t)).
    { constructor.
      - exists 0. split; [lia|]. left. reflexivity.
      - eapply Forall_impl; [|exact Ht]. intros e He.
        exists 0. split; [lia|]. right. exact He. }
    unfold walk_continues in Htop.
    destruct (os_path_exists w (venv_probe w root)).
    + exists [EvExists (venv_probe w root)], c.
      split; [reflexivity|]. split; [exact Hok|].
      inversion Hev; subst. constructor; [assumption|constructor].
    + destruct (is_project_root_spec w root).
      * exists (EvExists (venv_probe w root) :: t), c1. auto.
      * simpl in Htop. apply negb_false_iff in Htop. rewrite Htop.
        exists (EvExists (venv_probe w root) :: t), c1. auto.
  - destruct (walk_continues_true w root (Hbelow 0 ltac:(lia)))
      as [Hvenv [Hspec Hguard]].
    rewrite Hvenv, Hspec, Hguard.
    assert (Hshort : String.length (os_path_dirname w root) < fuel).
    { apply orb_false_elim in Hguard. destruct Hguard as [Hle _].
      apply Nat.leb_gt in Hle. lia. }
    destruct (IH (os_path_dirname w root) c1 fuel Hok1 Hshort)
      as [t2 [c2 [Hrec [Hok2 Ht2]]]].
    { intros i Hi. rewrite <- up_succ. apply Hbelow. lia. }
    { rewrite <- up_succ. exact Htop. }
    rewrite <- up_succ in Hrec.
    rewrite (after_events_returns _ _ _ _ _ Hrec).
    exists ((EvExists (venv_probe w root) :: t) ++ t2), c2.
    split; [reflexivity|]. split; [exact Hok2|].
    apply Forall_app. split.
    + constructor.
      * exists 0. split; [lia|]. left. reflexivity.
      * eapply Forall_impl; [|exact Ht]. intros e He.
        exists 0. split; [lia|]. right. exact He.
    + eapply Forall_impl; [|exact Ht2]. intros e [i [Hi He]].
      exists (S i). split; [lia|]. rewrite up_succ. exact He.
Qed.

Lemma python_exe_posix w : platform w <> "windows" -> python_exe w = "python".
Proof.
  intros H. unfold python_exe.
  destruct (String.eqb_spec (platform w) "windows"); [contradiction|reflexivity].
Qed.

(** On Windows the walk tests [venv\bin\python.exe], which is not the
    [Scripts\python.exe] that [binary_from_python_path] tests. *)
Lemma venv_probe_windows w root :
  platform w = "windows" ->
  venv_probe w root = os_path_join w root ["venv"; "bin"; "python.exe"]
  /\ binary_path w (os_path_join w root ["venv"])
     = os_path_join w (os_path_join w root ["venv"]) ["Scripts"; "python.exe"].
Proof.
  intros H. unfold venv_probe, python_exe, binary_path. rewrite H.
  split; reflexivity.
Qed.

(** C4 as stated fails: the project [/home/u/p] has no venv and is not
    a project root, its parent [/home/u] holds [venv/bin/python], and
    the walk returns [None], because the parent is the home directory
    and line 164 ends the walk before looking at it. *)
Lemma find_venv_misses_venv_of_home :
  ~ (forall (w : World) (root : string) (c : cache) (n : nat),
       cache_ok w c = true ->
       os_path_lexists w root = true ->
       (forall i, i < n ->
          os_path_exists w (conventional_interpreter w (up w i root)) = false
          /\ is_project_root_spec w (up w i root) = false) ->
       os_path_exists w (conventional_interpreter w (up w n root)) = true ->
       result_of (_find_venv w root c)
       = Ret (Some (conventional_interpreter w (up w n root)))).
Proof.
  intros H.
  specialize (H (posix_world host_tree) "/home/u/p" [] 1 eq_refl eq_refl).
  assert (Hbelow : forall i, i < 1 ->
            os_path_exists (posix_world host_tree)
              (conventional_interpreter (posix_world host_tree)
                 (up (posix_world host_tree) i "/home/u/p")) = false
            /\ is_project_root_spec (posix_world host_tree)
                 (up (posix_world host_tree) i "/home/u/p") = false).
  { intros i Hi. assert (i = 0) by lia. subst i. split; reflexivity. }
  specialize (H Hbelow eq_refl). vm_compute in H. discriminate.
Qed.

(** C4, amended (systems other than Windows): from an existing start
    directory the walk goes up while the directory has no
    [venv/bin/python], is not a project root, and its parent is strictly
    shorter and is not the home directory.  At the first directory where
    one of these fails, [_find_venv] returns [venv/bin/python] of that
    directory when it exists and [None] when it does not; every test it
    makes is at that directory or below it on the way, and the memo
    table still agrees with the world. *)
Theorem find_venv_returns_first_venv_reached :
  forall (w : World) (root : string) (c : cache) (n : nat),
    platform w <> "windows" ->
    cache_ok w c = true ->
    os_path_lexists w root = true ->
    (forall i, i < n -> walk_continues w (up w i root) = true) ->
    walk_continues w (up w n root) = false ->
    let interpreter := os_path_join w (up w n root) ["venv"; "bin"; "python"] in
    exists t c',
      _find_venv w root c
      = (Ret (if os_path_exists w interpreter then Some interpreter else None),
         EvLexists root :: t, c')
      /\ cache_ok w c' = true
      /\ Forall (fun e => exists i, i <= n /\ round_event w (up w i root) e) t.
Proof.
  intros w root c n Hplat Hok Hex Hbelow Htop interpreter.
  destruct (find_venv_loop_walk w n root c (S (String.length root)) Hok
              ltac:(lia) Hbelow Htop) as [t [c' [Hrun [Hok' Ht]]]].
  exists t, c'. split; [|split; assumption].
  rewrite (find_venv_is_loop w _ root c _ t c' Hex Hrun).
  unfold interpreter, venv_probe. rewrite (python_exe_posix w Hplat).
  reflexivity.
Qed.

Lemma find_venv_returns_first_venv_reached_witness :
  result_of (_find_venv (posix_world host_tree) "/home/u/work/app/src/pkg" [])
  = Ret (Some "/home/u/work/app/venv/bin/python")
  /\ result_of (_find_venv (posix_world host_tree) "/srv/site/lib" [])
     = Ret None.
Proof.
  split.
  - destruct (find_venv_returns_first_venv_reached (posix_world host_tree)
                "/home/u/work/app/src/pkg" [] 2) as [t [c' [Hrun _]]].
    + discriminate.
    + reflexivity.
    + reflexivity.
    + intros i Hi. destruct i as [|[|i]]; [reflexivity|reflexivity|lia].
    + reflexivity.
    + rewrite Hrun. reflexivity.
  - destruct (find_venv_returns_first_venv_reached (posix_world host_tree)
                "/srv/site/lib" [] 1) as [t [c' [Hrun _]]].
    + discriminate.
    + reflexivity.
    + reflexivity.
    + intros i Hi. destruct i as [|i]; [reflexivity|lia].
    + reflexivity.
    + rewrite Hrun. reflexivity.
Defined.

(* ================================================================== *)
(** ** Where the primary resolver looks (C3) *)
(* ================================================================== *)

Lemma trace_bind {A B} (P : event -> Prop) (m : M A) (k : A -> M B) c :
  Forall P (trace_of (m c)) ->
  (forall a c1, Forall P (trace_of (k a c1))) ->
  Forall P (trace_of (bind m k c)).
Proof.
  intros Hm Hk. unfold bind.
  destruct (m c) as [[[a|e] t1] c1]; simpl in *.
  - specialize (Hk a c1). destruct (k a c1) as [[o t2] c2]. simpl in *.
    apply Forall_app. split; assumption.
  - exact Hm.
Qed.

Lemma trace_bind_run {A B} (P : event -> Prop) (m : M A) (k : A -> M B)
      c a t1 c1 :
  m c = (Ret a, t1, c1) ->
  Forall P t1 ->
  Forall P (trace_of (k a c1)) ->
  Forall P (trace_of (bind m k c)).
Proof.
  intros Hm Ht Hk. rewrite (run_bind _ _ c _ _ _ Hm).
  unfold trace_of at 1. simpl. apply Forall_app. split; assumption.
Qed.

Section PrimaryResolver.

Variable w : World.
Variable workspace_folder : string.

Lemma binary_from_venv_events child c :
  child_of_folder w workspace_folder child ->
  Forall (resolver_event w workspace_folder)
    (trace_of (binary_from_venv w workspace_folder child c)).
Proof.
  intros Hchild.
  destruct (binary_from_venv_run w workspace_folder child c) as [t [-> Ht]].
  unfold trace_of. simpl.
  assert (Hcfg : resolver_event w workspace_folder
                   (EvIsfile (os_path_join w workspace_folder
                                [child; "pyvenv.cfg"]))).
  { simpl. right. right. left. exists child. split; [exact Hchild|reflexivity]. }
  destruct Ht as [-> | ->].
  - apply Forall_cons; [exact Hcfg | apply Forall_nil].
  - apply Forall_cons; [exact Hcfg|].
    apply Forall_cons; [|apply Forall_nil].
    simpl. right. right. right. exists child. split; [exact Hchild|reflexivity].
Qed.

Lemma search_children_events skip files after :
  (forall file, In file files -> child_of_folder w workspace_folder file) ->
  (forall c, Forall (resolver_event w workspace_folder) (trace_of (after c))) ->
  forall c,
    Forall (resolver_event w workspace_folder)
      (trace_of (search_children w workspace_folder skip files after c)).
Proof.
  intros Hfiles Hafter. induction files as [|file rest IH]; intros c; simpl.
  - apply Hafter.
  - assert (IH' := IH (fun f H => Hfiles f (or_intror H))). clear IH.
    destruct (skip file); [apply IH'|].
    apply trace_bind.
    + apply binary_from_venv_events. apply Hfiles. left. reflexivity.
    + intros [b|] c1; [apply Forall_nil | apply IH'].
Qed.

Lemma search_subfolders_events c :
  Forall (resolver_event w workspace_folder)
    (trace_of (search_subfolders w workspace_folder c)).
Proof.
  unfold search_subfolders. apply search_children_events.
  - intros file [<- | [<- | []]].
    + left. reflexivity.
    + right. left. reflexivity.
  - intros c0. destruct (os_listdir w workspace_folder) as [names|] eqn:Hlist.
    + eapply trace_bind_run; [apply (run_io_listdir w _ names c0 Hlist) | |].
      * apply Forall_cons; [reflexivity | apply Forall_nil].
      * apply search_children_events.
        -- intros file Hin. right. right. exists names. split; assumption.
        -- intros c2. apply Forall_nil.
    + unfold io_listdir, bind, emit, raise, trace_of. rewrite Hlist. simpl.
      apply Forall_cons; [reflexivity | apply Forall_nil].
Qed.

Lemma post_processing_of_rules r post :
  In r (venv_config_files w) ->
  post_processing r = Some post ->
  post = binary_from_python_path w.
Proof.
  intros Hr Hpost.
  destruct Hr as [<- | [<- | [<- | []]]]; simpl in Hpost;
    try discriminate.
  injection Hpost as <-. reflexivity.
Qed.

Lemma run_rules_events rules after :
  (forall r, In r rules -> In r (venv_config_files w)) ->
  (forall c, Forall (resolver_event w workspace_folder) (trace_of (after c))) ->
  forall c,
    Forall (resolver_event w workspace_folder)
      (trace_of (run_rules w workspace_folder rules after c)).
Proof.
  intros Hrules Hafter. induction rules as [|r rest IH]; intros c; simpl.
  - apply Hafter.
  - assert (Hr : In r (venv_config_files w)) by (apply Hrules; left; reflexivity).
    assert (IH' := IH (fun r' H => Hrules r' (or_intror H))). clear IH.
    eapply trace_bind_run; [apply run_io_isfile | |].
    { apply Forall_cons; [|apply Forall_nil].
      simpl. left. exists r. split; [exact Hr|reflexivity]. }
    destruct (os_path_isfile w (join w workspace_folder [config_file r]))
      eqn:Hmarker; [|apply IH'].
    unfold join in Hmarker.
    eapply trace_bind_run; [apply run_io_check_output | |].
    { apply Forall_cons; [|apply Forall_nil].
      simpl. split; [reflexivity|]. split; [reflexivity|]. exists r. auto. }
    destruct (check_output w (command r) workspace_folder) as [text| | |] eqn:Hout.
    + destruct (post_processing r) as [post|] eqn:Hpost; [|apply Forall_nil].
      rewrite (post_processing_of_rules r post Hr Hpost).
      eapply trace_bind_run; [apply binary_from_python_path_run | |].
      * apply Forall_cons; [|apply Forall_nil].
        simpl. right. left. exists r, text.
        split; [exact Hr|]. split; [congruence|]. auto.
      * apply Forall_nil.
    + eapply trace_bind_run; [apply run_print | |];
        [apply Forall_cons; [exact I | apply Forall_nil] | apply IH'].
    + eapply trace_bind_run; [apply run_print | |];
        [apply Forall_cons; [exact I | apply Forall_nil] | apply IH'].
    + apply Forall_nil.
Qed.

Lemma resolver_events settings first others c :
  path first = workspace_folder ->
  truthy (dotted_get settings "python.pythonPath") = false ->
  Forall (resolver_event w workspace_folder)
    (trace_of (resolve_python_path_from_venv w settings (first :: others) c)).
Proof.
  intros Hpath Hoverride. unfold resolve_python_path_from_venv.
  rewrite Hoverride, Hpath.
  apply run_rules_events; [auto|]. apply search_subfolders_events.
Qed.

End PrimaryResolver.

(** C3 as stated fails: the folder [/home/u/work/app/src] holds no
    marker file of any tool, the project root above it holds
    [venv/bin/python], and the upward walk from the folder (the loop of
    [resolve_virtualenv]) finds that interpreter; the resolver that
    [on_pre_start] calls returns [None] for the same world. *)
Lemma primary_resolver_does_not_walk_up :
  ~ (forall (w : World) (settings : DottedDict)
            (folders : list WorkspaceFolder) (c : cache),
       truthy (dotted_get settings "python.pythonPath") = false ->
       (forall folder r,
          In folder folders -> In r (venv_config_files w) ->
          os_path_isfile w (os_path_join w (path folder) [config_file r])
          = false) ->
       result_of (resolve_python_path_from_venv w settings folders c)
       = result_of (find_venv_in w folders c)).
Proof.
  intros H.
  specialize (H (posix_world host_tree) [] [src_folder] [] eq_refl).
  assert (Hno : forall folder r,
            In folder [src_folder] ->
            In r (venv_config_files (posix_world host_tree)) ->
            os_path_isfile (posix_world host_tree)
              (os_path_join (posix_world host_tree) (path folder)
                 [config_file r]) = false).
  { intros folder r [<- | []] [<- | [<- | [<- | []]]]; reflexivity. }
  specialize (H Hno). vm_compute in H. discriminate.
Qed.

Example walk_and_resolver_differ :
  result_of (resolve_virtualenv (posix_world host_tree) [] [src_folder] [])
  = Ret (VStr "/home/u/work/app/venv/bin/python")
  /\ resolve_python_path_from_venv (posix_world host_tree) [] [src_folder] []
     = (Ret VNone,
        [EvIsfile "/home/u/work/app/src/Pipfile";
         EvIsfile "/home/u/work/app/src/poetry.lock";
         EvIsfile "/home/u/work/app/src/.python-version";
         EvIsfile "/home/u/work/app/src/venv/pyvenv.cfg";
         EvIsfile "/home/u/work/app/src/.venv/pyvenv.cfg";
         EvListdir "/home/u/work/app/src";
         EvIsfile "/home/u/work/app/src/pkg/pyvenv.cfg"],
        [])
  /\ result_of (on_pre_start (posix_world host_tree) [src_folder] [] [])
     = Ret [("python", VDict [("pythonPath", VStr "python")])].
Proof. repeat split; reflexivity. Qed.

(** C3, amended: when no override is set, the resolver that
    [on_pre_start] calls looks for a venv among the direct children of
    the first workspace folder only.  Every event of its run, and of the
    run of [on_pre_start], is one of these: the test of a rule's marker
    file in that folder; the command of a rule whose marker file is
    there, run in that folder; the test of the interpreter that such a
    command named (for a rule with a post-processing); a printed line;
    the listing of that folder; the test of [pyvenv.cfg] or of the
    interpreter inside the child [venv], the child [.venv], or a child
    whose name [os.listdir] gave for that folder.  No parent directory
    and no other folder is looked at, and no existence test of the
    upward walk or of the project-root test is made. *)
Theorem primary_resolver_stays_in_first_folder :
  forall (w : World) (settings : DottedDict) (first : WorkspaceFolder)
         (others : list WorkspaceFolder) (c : cache),
    truthy (dotted_get settings "python.pythonPath") = false ->
    Forall (resolver_event w (path first))
      (trace_of (resolve_python_path_from_venv w settings (first :: others) c))
    /\ Forall (resolver_event w (path first))
         (trace_of (on_pre_start w (first :: others) settings c)).
Proof.
  intros w settings first others c Hoverride.
  assert (Hres : forall c0,
            Forall (resolver_event w (path first))
              (trace_of (resolve_python_path_from_venv w settings
                           (first :: others) c0))).
  { intros c0. apply resolver_events; [reflexivity | exact Hoverride]. }
  split; [apply Hres|].
  unfold on_pre_start. apply trace_bind; [apply Hres|].
  intros resolved c1. apply trace_bind.
  - apply Forall_cons; [exact I | apply Forall_nil].
  - intros _ c2. apply Forall_nil.
Qed.

Lemma primary_resolver_stays_in_first_folder_witness :
  Forall (resolver_event (posix_world host_tree) "/home/u/work/app/src")
    (trace_of (resolve_python_path_from_venv (posix_world host_tree) []
                 [src_folder; {| folder_name := "app"; path := "/home/u/work/app" |}]
                 [])).
Proof.
  apply (proj1 (primary_resolver_stays_in_first_folder (posix_world host_tree) []
                  src_folder
                  [{| folder_name := "app"; path := "/home/u/work/app" |}] []
                  eq_refl)).
Defined.

(** The events the theorem allows for the folder [/home/u/work/app/src]
    do not include a test in its parent, in the home directory, or in
    another project. *)
Example resolver_event_excludes_other_places :
  ~ resolver_event (posix_world host_tree) "/home/u/work/app/src"
      (EvIsfile "/home/u/work/app/venv/pyvenv.cfg")
  /\ ~ resolver_event (posix_world host_tree) "/home/u/work/app/src"
        (EvIsfile "/home/u/work/app/src/../venv/pyvenv.cfg")
  /\ ~ resolver_event (posix_world host_tree) "/home/u/work/app/src"
        (EvIsfile "/home/u/venv/bin/python")
  /\ ~ resolver_event (posix_world host_tree) "/home/u/work/app/src"
        (EvIsfile "/srv/site/venv/bin/python")
  /\ ~ resolver_event (posix_world host_tree) "/home/u/work/app/src"
        (EvListdir "/home/u/work/app")
  /\ ~ resolver_event (posix_world host_tree) "/home/u/work/app/src"
        (EvExists "/home/u/work/app/venv/bin/python").
Proof.
  assert (Hchild : forall child (P : Prop),
            child_of_folder (posix_world host_tree) "/home/u/work/app/src" child ->
            (child = "venv" -> P) -> (child = ".venv" -> P) ->
            (child = "pkg" -> P) -> P).
  { intros child P [H | [H | [names [Hlist Hin]]]] Hv Hd Hp; auto.
    vm_compute in Hlist. injection Hlist as <-.
    destruct Hin as [H | []]. auto. }
  assert (Hfile : forall p,
            resolver_event (posix_world host_tree) "/home/u/work/app/src"
              (EvIsfile p) ->
            In p ["/home/u/work/app/src/Pipfile";
                  "/home/u/work/app/src/poetry.lock";
                  "/home/u/work/app/src/.python-version";
                  "/home/u/work/app/src/venv/pyvenv.cfg";
                  "/home/u/work/app/src/.venv/pyvenv.cfg";
                  "/home/u/work/app/src/pkg/pyvenv.cfg";
                  "/home/u/work/app/src/venv/bin/python";
                  "/home/u/work/app/src/.venv/bin/python";
                  "/home/u/work/app/src/pkg/bin/python"]).
  { intros p H. simpl in H.
    destruct H as [[r [Hr ->]] | [[r [text [Hr [_ [_ [Hout _]]]]]]
                                  | [[child [Hc ->]] | [child [Hc ->]]]]].
    - destruct Hr as [<- | [<- | [<- | []]]]; vm_compute; tauto.
    - destruct Hr as [<- | [<- | [<- | []]]]; vm_compute in Hout; discriminate.
    - apply (Hchild child _ Hc); intros ->; vm_compute; tauto.
    - apply (Hchild child _ Hc); intros ->; vm_compute; tauto. }
  assert (Hnot : forall p,
            ~ In p ["/home/u/work/app/src/Pipfile";
                    "/home/u/work/app/src/poetry.lock";
                    "/home/u/work/app/src/.python-version";
                    "/home/u/work/app/src/venv/pyvenv.cfg";
                    "/home/u/work/app/src/.venv/pyvenv.cfg";
                    "/home/u/work/app/src/pkg/pyvenv.cfg";
                    "/home/u/work/app/src/venv/bin/python";
                    "/home/u/work/app/src/.venv/bin/python";
                    "/home/u/work/app/src/pkg/bin/python"] ->
            ~ resolver_event (posix_world host_tree) "/home/u/work/app/src"
                (EvIsfile p)).
  { intros p Hp H. apply Hp, Hfile, H. }
  repeat split; try (apply Hnot; simpl; intros H;
                     repeat (destruct H as [H | H]; [discriminate H|]);
                     exact H).
  - simpl. discriminate.
  - simpl. tauto.
Qed.

Lemma find_package_dependency_dirs_returns_directories_witness :
  exists dirs t,
    find_package_dependency_dirs (posix_world host_sublime) (3, 8)%Z []
    = (Ret dirs, t, [])
    /\ Forall (fun p => os_path_isdir (posix_world host_sublime) p = true) dirs.
Proof.
  apply (proj1 (find_package_dependency_dirs_returns_directories
                  (posix_world host_sublime) (3, 8)%Z [])).
  vm_compute. tauto.
Defined.

(* ================================================================== *)
(** ** The library models on examples *)
(* ================================================================== *)

Example posix_join_ex :
  posixpath.join "/w" ["venv"; "bin"; "python"] = "/w/venv/bin/python"
  /\ posixpath.join "/w/" ["/abs"; "x"] = "/abs/x"
  /\ posixpath.join "" ["venv"] = "venv".
Proof. repeat split; reflexivity. Qed.

Example posix_dirname_ex :
  map posixpath.dirname ["/a/b/c"; "/a/b/"; "/a"; "/"; "a//b"; "a"; ""; "///x"]
  = ["/a/b"; "/a/b"; "/"; "/"; "a"; ""; ""; "///"].
Proof. reflexivity. Qed.

Example strip_ex : strip "  /usr/bin/python3
" = "/usr/bin/python3".
Proof. reflexivity. Qed.

Example re_sub_ex :
  map (re_sub_python3 "8")
      ["/opt/st/Lib/python33"; "/opt/Python3.3/x"; "/opt/python3.9"; "python38python3"]
  = ["/opt/st/Lib/python38"; "/opt/Python3.8/x"; "/opt/python3.9"; "python38python3"].
Proof. reflexivity. Qed.

Example shlex_quote_ex :
  str_join " " (map shlex_quote ["poetry"; "env"; "info"; "-p"]) = "poetry env info -p"
  /\ shlex_quote "a b" = "'a b'".
Proof. split; reflexivity. Qed.


Example dotted_get_set_ex :
  split "." "python.pythonPath" = ["python"; "pythonPath"]
  /\ dotted_get [("python", VDict [("pythonPath", VStr "/usr/bin/python3")])]
       "python.pythonPath" = VStr "/usr/bin/python3"
  /\ dotted_get [("python", VStr "x")] "python.pythonPath" = VNone
  /\ dotted_set [("pyright", VDict [])] "python.pythonPath" (VStr "python")
     = [("pyright", VDict []); ("python", VDict [("pythonPath", VStr "python")])].
Proof. repeat split; reflexivity. Qed.

(* ================================================================== *)
(** ** Further properties: the memo table and the walk *)
(* ================================================================== *)

(** X1: a second call of [is_project_root] on the same path, right after
    a first one, answers from the memo table: it returns the same
    boolean and makes no test on the filesystem, whatever the table held
    before the first call. *)
Theorem is_project_root_second_call_is_a_hit :
  forall (w : World) (p : string) (c : cache),
    let first := is_project_root w p c in
    let second := is_project_root w p (cache_of first) in
    result_of second = result_of first /\ trace_of second = [].
Proof.
  intros w p c. cbv zeta. unfold is_project_root, lru_cache.
  destruct (cache_find p c) as [v|] eqn:Hfind.
  - unfold cache_of at 1 2. simpl. rewrite String.eqb_refl.
    split; reflexivity.
  - destruct (is_project_root_body_run w p c) as [t [Hrun _]]. rewrite Hrun.
    unfold cache_of at 1 2. simpl. rewrite String.eqb_refl.
    split; reflexivity.
Qed.

Section WalkFacts.

Variable w : World.

(** From every start the walk reaches a directory where it does not go
    on. *)
Lemma walk_stops_somewhere :
  forall len root,
    String.length root <= len ->
    exists n,
      (forall i, i < n -> walk_continues w (up w i root) = true)
      /\ walk_continues w (up w n root) = false.
Proof.
  induction len as [|len IH]; intros root Hlen.
  - exists 0. split; [intros i Hi; lia|].
    change (up w 0 root) with root. unfold walk_continues.
    assert (Hle : (String.length root
                   <=? String.length (os_path_dirname w root))%nat = true)
      by (apply Nat.leb_le; lia).
    rewrite Hle. simpl. rewrite andb_false_r. reflexivity.
  - destruct (walk_continues w root) eqn:Hgo.
    + destruct (walk_continues_true w root Hgo) as [_ [_ Hguard]].
      apply orb_false_elim in Hguard. destruct Hguard as [Hlt _].
      apply Nat.leb_gt in Hlt.
      destruct (IH (os_path_dirname w root) ltac:(lia)) as [n [Hbelow Htop]].
      exists (S n). split.
      * intros [|i] Hi; [exact Hgo|]. rewrite up_succ. apply Hbelow. lia.
      * rewrite up_succ. exact Htop.
    + exists 0. split; [intros i Hi; lia | exact Hgo].
Qed.

(** With a memo table that agrees with the world, [_find_venv] returns
    the venv of the first directory where the walk stops, if it has one,
    and leaves a table that agrees. *)
Lemma find_venv_run root c :
  cache_ok w c = true ->
  exists n t c',
    _find_venv w root c
    = (Ret (if os_path_lexists w root
            then if os_path_exists w (venv_probe w (up w n root))
                 then Some (venv_probe w (up w n root)) else None
            else None), t, c')
    /\ cache_ok w c' = true
    /\ (forall i, i < n -> walk_continues w (up w i root) = true)
    /\ walk_continues w (up w n root) = false.
Proof.
  intros Hok.
  destruct (walk_stops_somewhere (String.length root) root (Nat.le_refl _))
    as [n [Hbelow Htop]].
  exists n.
  destruct (os_path_lexists w root) eqn:Hex.
  - destruct (find_venv_loop_walk w n root c (S (String.length root)) Hok
                ltac:(lia) Hbelow Htop) as [t [c' [Hrun [Hok' _]]]].
    rewrite (find_venv_is_loop w _ root c _ t c' Hex Hrun). eauto 10.
  - rewrite (find_venv_missing w root c Hex). eauto 10.
Qed.

Lemma walk_stop_unique root n m :
  (forall i, i < n -> walk_continues w (up w i root) = true) ->
  walk_continues w (up w n root) = false ->
  (forall i, i < m -> walk_continues w (up w i root) = true) ->
  walk_continues w (up w m root) = false ->
  n = m.
Proof.
  intros Hn Hn' Hm Hm'.
  destruct (Nat.lt_trichotomy n m) as [Hlt | [Heq | Hgt]]; [|exact Heq|].
  - rewrite (Hm n Hlt) in Hn'. discriminate.
  - rewrite (Hn m Hgt) in Hm'. discriminate.
Qed.

Lemma find_venv_same_as_empty_table root c :
  cache_ok w c = true ->
  result_of (_find_venv w root c) = result_of (_find_venv w root [])
  /\ cache_ok w (cache_of (_find_venv w root c)) = true.
Proof.
  intros Hok.
  destruct (find_venv_run root c Hok) as [n [t [c' [Hrun [Hok' [Hn Hn']]]]]].
  destruct (find_venv_run root [] eq_refl) as [m [t0 [c0 [Hrun0 [_ [Hm Hm']]]]]].
  rewrite Hrun, Hrun0.
  rewrite (walk_stop_unique root n m Hn Hn' Hm Hm').
  split; [reflexivity | exact Hok'].
Qed.

(** What the loop returns as a venv was tested and exists, and sits
    under a directory reached by going up; no memo table can change
    that. *)
Lemma find_venv_loop_sound fuel :
  forall root c v t c',
    find_venv_loop w fuel root c = (Ret (Some (Some v)), t, c') ->
    os_path_exists w v = true
    /\ exists i, i < fuel
                 /\ v = venv_probe w (up w i root)
                 /\ forall j, j < i ->
                      os_path_exists w (venv_probe w (up w j root)) = false.
Proof.
  induction fuel as [|fuel IH]; intros root c v t c' Hrun.
  - simpl in Hrun. discriminate.
  - destruct (is_project_root_total w root c) as [b [t1 [c1 [Hroot _]]]].
    rewrite (find_venv_loop_round w fuel root c b t1 c1 Hroot) in Hrun.
    destruct (os_path_exists w (venv_probe w root)) eqn:Hex.
    + injection Hrun as <- _ _. split; [exact Hex|].
      exists 0. split; [lia|]. split; [reflexivity|]. intros j Hj. lia.
    + destruct b; [discriminate|].
      destruct (_ || _); [discriminate|].
      apply after_events_inv in Hrun. destruct Hrun as [t2 [Hrec _]].
      destruct (IH _ _ _ _ _ Hrec) as [Hv [i [Hi [Heq Hbelow]]]].
      split; [exact Hv|]. exists (S i). split; [lia|].
      split; [rewrite up_succ; exact Heq|].
      intros [|j] Hj; [exact Hex|]. rewrite up_succ. apply Hbelow. lia.
Qed.

End WalkFacts.

(** X2: the memo table is an optimisation only.  Starting from any table
    that agrees with the world, [is_project_root] and [_find_venv]
    return what they return from the empty table, and the table they
    leave agrees with the world again. *)
Theorem memo_table_does_not_change_results :
  forall (w : World) (p : string) (c : cache),
    cache_ok w c = true ->
    (result_of (is_project_root w p c) = result_of (is_project_root w p [])
     /\ cache_ok w (cache_of (is_project_root w p c)) = true)
    /\ (result_of (_find_venv w p c) = result_of (_find_venv w p [])
        /\ cache_ok w (cache_of (_find_venv w p c)) = true).
Proof.
  intros w p c Hok. split.
  - destruct (is_project_root_run w p c Hok) as [t [c' [Hrun [Hok' _]]]].
    destruct (is_project_root_run w p [] eq_refl) as [t0 [c0 [Hrun0 _]]].
    rewrite Hrun, Hrun0. split; [reflexivity | exact Hok'].
  - apply find_venv_same_as_empty_table. exact Hok.
Qed.

Lemma memo_table_does_not_change_results_witness :
  let w := posix_world host_tree in
  let c := cache_of (_find_venv w "/home/u/work/app/src/pkg" []) in
  map (fun kv => fst kv) c
  = ["/home/u/work/app/src"; "/home/u/work/app/src/pkg"]
  /\ result_of (_find_venv w "/home/u/work/app/src" c)
     = result_of (_find_venv w "/home/u/work/app/src" []).
Proof.
  cbv zeta. split; [reflexivity|].
  apply (proj2 (memo_table_does_not_change_results (posix_world host_tree)
                  "/home/u/work/app/src"
                  (cache_of (_find_venv (posix_world host_tree)
                               "/home/u/work/app/src/pkg" []))
                  eq_refl)).
Defined.

(** X3: whatever the memo table holds, a path that [_find_venv] returns
    was tested and exists; the start path exists; the path is
    [venv/bin/<python_exe>] under the start directory or under one of
    its parents, at most as many steps up as the start path is long; and
    no directory below that one on the way has such an interpreter. *)
Theorem find_venv_returns_existing_nearest_venv :
  forall (w : World) (root : string) (c : cache) (v : string),
    result_of (_find_venv w root c) = Ret (Some v) ->
    os_path_exists w v = true
    /\ os_path_lexists w root = true
    /\ exists i,
         i <= String.length root
         /\ v = os_path_join w (up w i root) ["venv"; "bin"; python_exe w]
         /\ forall j, j < i ->
              os_path_exists w
                (os_path_join w (up w j root) ["venv"; "bin"; python_exe w])
              = false.
Proof.
  intros w root c v Hres.
  destruct (os_path_lexists w root) eqn:Hex.
  - destruct (find_venv_loop_returns w (S (String.length root)) root c
                ltac:(lia)) as [r [t [c' Hrun]]].
    rewrite (find_venv_is_loop w _ root c r t c' Hex Hrun) in Hres.
    unfold result_of in Hres. simpl in Hres. injection Hres as ->.
    destruct (find_venv_loop_sound w _ _ _ _ _ _ Hrun)
      as [Hv [i [Hi [Heq Hbelow]]]].
    split; [exact Hv|]. split; [reflexivity|].
    exists i. split; [lia|]. split; [exact Heq | exact Hbelow].
  - rewrite (find_venv_missing w root c Hex) in Hres. discriminate.
Qed.

Lemma find_venv_returns_existing_nearest_venv_witness :
  os_path_exists (posix_world host_tree) "/home/u/work/app/venv/bin/python" = true
  /\ os_path_lexists (posix_world host_tree) "/home/u/work/app/src/pkg" = true.
Proof.
  destruct (find_venv_returns_existing_nearest_venv (posix_world host_tree)
              "/home/u/work/app/src/pkg"
              [("/home/u/work/app", false)]
              "/home/u/work/app/venv/bin/python" eq_refl)
    as [Hv [Hroot _]].
  split; [exact Hv | exact Hroot].
Defined.

(* ================================================================== *)
(** ** Further properties: [resolve_virtualenv] *)
(* ================================================================== *)

Lemma find_venv_in_run w folders :
  forall c,
    cache_ok w c = true ->
    result_of (find_venv_in w folders c)
    = Ret (of_option
             (fold_right
                (fun folder found =>
                   match result_of (_find_venv w (path folder) []) with
                   | Ret (Some v) => Some v
                   | _ => found
                   end) None folders))
    /\ cache_ok w (cache_of (find_venv_in w folders c)) = true.
Proof.
  induction folders as [|folder rest IH]; intros c Hok; simpl.
  - split; [reflexivity | exact Hok].
  - destruct (find_venv_same_as_empty_table w (path folder) c Hok)
      as [Hsame Hok1].
    destruct (find_venv_total w (path folder) c) as [venv [t [c1 Hrun]]].
    rewrite Hrun in Hsame, Hok1. unfold result_of at 1 in Hsame.
    unfold cache_of in Hok1. simpl in Hsame, Hok1. rewrite <- Hsame.
    rewrite (run_bind _ _ c _ _ _ Hrun).
    destruct venv as [v|].
    + split; [reflexivity | exact Hok1].
    + destruct (IH c1 Hok1) as [Hres Hok2].
      unfold result_of at 1. unfold cache_of at 1. simpl.
      split; [exact Hres | exact Hok2].
Qed.

(** X4: with no override and a memo table that agrees with the world,
    [resolve_virtualenv] returns the venv that the walk finds from the
    first folder, in the order of the list, from which it finds one:
    folders whose walk finds nothing are passed over, and the result is
    [None] when no folder gives one (an empty list among them). *)
Theorem resolve_virtualenv_returns_first_folder_with_venv :
  forall (w : World) (settings : DottedDict)
         (folders : list WorkspaceFolder) (c : cache),
    cache_ok w c = true ->
    truthy (dotted_get settings "python.pythonPath") = false ->
    (forall before folder behind v,
       folders = before ++ folder :: behind ->
       (forall g, In g before ->
          result_of (_find_venv w (path g) []) = Ret None) ->
       result_of (_find_venv w (path folder) []) = Ret (Some v) ->
       result_of (resolve_virtualenv w settings folders c) = Ret (VStr v))
    /\ ((forall g, In g folders ->
           result_of (_find_venv w (path g) []) = Ret None) ->
        result_of (resolve_virtualenv w settings folders c) = Ret VNone).
Proof.
  intros w settings folders c Hok Hoverride.
  unfold resolve_virtualenv. rewrite Hoverride.
  destruct (find_venv_in_run w folders c Hok) as [-> _].
  split.
  - intros before folder behind v -> Hbefore Hfound. f_equal.
    induction before as [|g before IH]; simpl.
    + rewrite Hfound. reflexivity.
    + rewrite (Hbefore g (or_introl eq_refl)).
      apply IH. intros g' Hg'. apply Hbefore. right. exact Hg'.
  - intros Hnone. f_equal.
    induction folders as [|g rest IH]; simpl; [reflexivity|].
    rewrite (Hnone g (or_introl eq_refl)).
    apply IH. intros g' Hg'. apply Hnone. right. exact Hg'.
Qed.

Lemma resolve_virtualenv_returns_first_folder_with_venv_witness :
  result_of (resolve_virtualenv (posix_world host_tree) []
               [{| folder_name := "p"; path := "/home/u/p" |}; src_folder] [])
  = Ret (VStr "/home/u/work/app/venv/bin/python").
Proof.
  apply (proj1 (resolve_virtualenv_returns_first_folder_with_venv
                  (posix_world host_tree) []
                  [{| folder_name := "p"; path := "/home/u/p" |}; src_folder]
                  [] eq_refl eq_refl)
           [{| folder_name := "p"; path := "/home/u/p" |}] src_folder []).
  - reflexivity.
  - intros g [<- | []]. reflexivity.
  - reflexivity.
Defined.

(* ================================================================== *)
(** ** Further properties: [resolve_python_path_from_venv] *)
(* ================================================================== *)

Lemma result_of_raise_bind {A B} (m : M A) (k : A -> M B) c e :
  result_of (m c) = Raise e -> result_of (bind m k c) = Raise e.
Proof.
  unfold bind, result_of. destruct (m c) as [[[a|e'] t] c1]; simpl;
    intros H; [discriminate H | injection H as ->; reflexivity].
Qed.

Lemma search_subfolders_unlistable w workspace_folder c :
  valid_venv w workspace_folder "venv" = false ->
  valid_venv w workspace_folder ".venv" = false ->
  os_listdir w workspace_folder = None ->
  result_of (search_subfolders w workspace_folder c) = Raise OSError.
Proof.
  intros Hvenv Hdot Hlist. unfold search_subfolders.
  match goal with
  | |- context [search_children w ?r ?s ?f ?a c] =>
      destruct (search_children_run w r s f a c) as [t1 Hrun]
  end.
  rewrite Hrun. cbn [filter negb find]. rewrite Hvenv, Hdot.
  unfold result_of at 1. simpl.
  unfold io_listdir, bind, emit, raise, result_of. rewrite Hlist. reflexivity.
Qed.

(** X5: when no override is set, no tool rule produces anything, neither
    [venv] nor [.venv] is a valid venv, and the first workspace folder
    cannot be listed ([os.listdir] raises: the folder is missing, is not
    a directory, or may not be read), the resolver raises [OSError], and
    so does [on_pre_start]: no interpreter path is written. *)
Theorem unlistable_folder_raises :
  forall (w : World) (settings : DottedDict) (first : WorkspaceFolder)
         (others : list WorkspaceFolder) (c : cache),
    truthy (dotted_get settings "python.pythonPath") = false ->
    forallb (rule_gives_nothing w (path first)) (venv_config_files w) = true ->
    valid_venv w (path first) "venv" = false ->
    valid_venv w (path first) ".venv" = false ->
    os_listdir w (path first) = None ->
    result_of (resolve_python_path_from_venv w settings (first :: others) c)
    = Raise OSError
    /\ result_of (on_pre_start w (first :: others) settings c) = Raise OSError.
Proof.
  intros w settings first others c Hoverride Hrules Hvenv Hdot Hlist.
  assert (Hres : result_of (resolve_python_path_from_venv w settings
                              (first :: others) c) = Raise OSError).
  { unfold resolve_python_path_from_venv. rewrite Hoverride.
    destruct (run_rules_nothing w (path first) (venv_config_files w)
                (search_subfolders w (path first)) c Hrules) as [t Hrun].
    rewrite Hrun. unfold result_of at 1. simpl.
    apply search_subfolders_unlistable; assumption. }
  split; [exact Hres|].
  unfold on_pre_start. apply result_of_raise_bind. exact Hres.
Qed.

Lemma unlistable_folder_raises_witness :
  result_of (on_pre_start (posix_world host_tree)
               [{| folder_name := "gone"; path := "/home/u/gone" |}] [] [])
  = Raise OSError.
Proof.
  apply (proj2 (unlistable_folder_raises (posix_world host_tree) []
                  {| folder_name := "gone"; path := "/home/u/gone" |} [] []
                  eq_refl eq_refl eq_refl eq_refl eq_refl)).
Defined.

Section ResolverFacts.

Variable w : World.
Variable workspace_folder : string.



End ResolverFacts.



Lemma commands_run_app t1 t2 :
  commands_run (t1 ++ t2) = commands_run t1 ++ commands_run t2.
Proof.
  induction t1 as [|e t1 IH]; simpl; [reflexivity|].
  destruct e; simpl; rewrite ?IH; reflexivity.
Qed.

Lemma commands_run_tests t :
  Forall (fun e => match e with
                   | EvIsfile _ | EvListdir _ => True
                   | _ => False
                   end) t ->
  commands_run t = [].
Proof.
  induction 1 as [|e t He _ IH]; simpl; [reflexivity|].
  destruct e; try contradiction; exact IH.
Qed.

Section ResolverCommands.

Variable w : World.
Variable workspace_folder : string.

Let only_tests (e : event) : Prop :=
  match e with
  | EvIsfile _ | EvListdir _ => True
  | _ => False
  end.

Lemma search_children_only_tests skip files after :
  (forall c, Forall only_tests (trace_of (after c))) ->
  forall c,
    Forall only_tests
      (trace_of (search_children w workspace_folder skip files after c)).
Proof.
  intros Hafter. induction files as [|file rest IH]; intros c; simpl.
  - apply Hafter.
  - destruct (skip file); [apply IH|].
    apply trace_bind.
    + destruct (binary_from_venv_run w workspace_folder file c) as [t [-> Ht]].
      unfold trace_of. simpl.
      destruct Ht as [-> | ->]; repeat (apply Forall_cons; [exact I|]);
        apply Forall_nil.
    + intros [b|] c1; [apply Forall_nil | apply IH].
Qed.

Lemma search_subfolders_runs_nothing c :
  commands_run (trace_of (search_subfolders w workspace_folder c)) = [].
Proof.
  apply commands_run_tests. unfold search_subfolders.
  apply search_children_only_tests. intros c0. apply trace_bind.
  - unfold io_listdir, bind, emit.
    destruct (os_listdir w workspace_folder);
      (apply Forall_cons; [exact I | apply Forall_nil]).
  - intros files c1. apply search_children_only_tests.
    intros c2. apply Forall_nil.
Qed.

(** The commands the loop runs are those of the rules whose marker file
    is present, in the order of the rules, up to the first one that does
    not fail in one of the two ways the loop recovers from. *)
Lemma run_rules_commands rules after :
  (forall r, In r rules -> In r (venv_config_files w)) ->
  (forall c, commands_run (trace_of (after c)) = []) ->
  forall c,
    let ran := commands_run (trace_of (run_rules w workspace_folder rules after c)) in
    (exists rest,
       map command
         (filter (fun r => os_path_isfile w
                             (os_path_join w workspace_folder [config_file r]))
                 rules)
       = ran ++ rest)
    /\ (forall before cmd behind,
          ran = before ++ cmd :: behind -> behind <> [] ->
          check_output w cmd workspace_folder = FileNotFoundError
          \/ check_output w cmd workspace_folder = CalledProcessError).
Proof.
  intros Hrules Hafter. induction rules as [|r rest IH]; intros c; cbv zeta.
  - simpl. rewrite Hafter. split.
    + exists []. reflexivity.
    + intros [|x before] cmd behind H; discriminate H.
  - assert (Hr : In r (venv_config_files w)) by (apply Hrules; left; reflexivity).
    destruct (IH (fun r' H => Hrules r' (or_intror H)) c)
      as [[tail IHprefix] IHfailed].
    clear IH. cbn [run_rules filter].
    rewrite (run_bind _ _ c _ _ _ (run_io_isfile w _ c)). unfold join.
    destruct (os_path_isfile w (os_path_join w workspace_folder [config_file r])).
    + rewrite (run_bind _ _ c _ _ _ (run_io_check_output w _ _ c)).
      assert (Hone : forall t,
                commands_run t = [] ->
                (exists rest0,
                   map command
                     (r :: filter (fun r0 => os_path_isfile w
                                     (os_path_join w workspace_folder
                                        [config_file r0])) rest)
                   = (command r :: commands_run t) ++ rest0)
                /\ (forall before cmd behind,
                      command r :: commands_run t = before ++ cmd :: behind ->
                      behind <> [] ->
                      check_output w cmd workspace_folder = FileNotFoundError
                      \/ check_output w cmd workspace_folder = CalledProcessError)).
      { intros t ->. split.
        - eexists. reflexivity.
        - intros [|x [|y before]] cmd behind H Hne; simpl in H.
          + injection H as _ <-. contradiction.
          + discriminate H.
          + discriminate H. }
      assert (Hmore : forall line,
                check_output w (command r) workspace_folder = FileNotFoundError
                \/ check_output w (command r) workspace_folder = CalledProcessError ->
                let ran := command r
                           :: commands_run
                                ([EvPrint line]
                                 ++ trace_of (run_rules w workspace_folder rest after c)) in
                (exists rest0,
                   map command
                     (r :: filter (fun r0 => os_path_isfile w
                                     (os_path_join w workspace_folder
                                        [config_file r0])) rest)
                   = ran ++ rest0)
                /\ (forall before cmd behind,
                      ran = before ++ cmd :: behind -> behind <> [] ->
                      check_output w cmd workspace_folder = FileNotFoundError
                      \/ check_output w cmd workspace_folder = CalledProcessError)).
      { intros line Hfail. cbv zeta. cbn [app commands_run]. split.
        - exists tail. cbn [map]. rewrite IHprefix. reflexivity.
        - intros [|x before] cmd behind H Hne; simpl in H.
          + injection H as <- _. exact Hfail.
          + injection H as _ H. eapply IHfailed; eassumption. }
      destruct (check_output w (command r) workspace_folder) as [text| | |] eqn:Hout.
      * destruct (post_processing r) as [post|] eqn:Hpost.
        -- rewrite (post_processing_of_rules w r post Hr Hpost).
           rewrite (run_bind _ _ c _ _ _ (binary_from_python_path_run w _ c)).
           unfold trace_of, result_of, cache_of, ret. simpl.
           apply (Hone [EvIsfile (binary_path w (strip text))]). reflexivity.
        -- unfold trace_of, result_of, cache_of, ret. simpl.
           apply (Hone []). reflexivity.
      * rewrite (run_bind _ _ c _ _ _ (run_print _ c)).
        unfold trace_of at 1 2. simpl.
        apply (Hmore (warn_not_found w r)). left. reflexivity.
      * rewrite (run_bind _ _ c _ _ _ (run_print _ c)).
        unfold trace_of at 1 2. simpl.
        apply (Hmore (warn_non_zero w r)). right. reflexivity.
      * unfold trace_of, raise. simpl. apply (Hone []). reflexivity.
    + unfold trace_of at 1. simpl. split; [exists tail; exact IHprefix | exact IHfailed].
Qed.

End ResolverCommands.

Lemma run_rules_commands_exact w workspace_folder rules after :
  (forall r, In r rules -> In r (venv_config_files w)) ->
  (forall c, commands_run (trace_of (after c)) = []) ->
  forall c,
    commands_run (trace_of (run_rules w workspace_folder rules after c))
    = through_first (recovered w workspace_folder)
        (map command
           (filter (fun r => os_path_isfile w
                               (os_path_join w workspace_folder [config_file r]))
                   rules)).
Proof.
  intros Hrules Hafter. induction rules as [|r rest IH]; intros c.
  - simpl. apply Hafter.
  - assert (Hr : In r (venv_config_files w)) by (apply Hrules; left; reflexivity).
    assert (IH' := IH (fun r' H => Hrules r' (or_intror H)) c). clear IH.
    cbn [run_rules filter].
    rewrite (run_bind _ _ c _ _ _ (run_io_isfile w _ c)). unfold join.
    destruct (os_path_isfile w (os_path_join w workspace_folder [config_file r])).
    + rewrite (run_bind _ _ c _ _ _ (run_io_check_output w _ _ c)).
      cbn [map through_first]. unfold recovered at 1.
      destruct (check_output w (command r) workspace_folder) as [text| | |] eqn:Hout.
      * destruct (post_processing r) as [post|] eqn:Hpost.
        -- rewrite (post_processing_of_rules w r post Hr Hpost).
           rewrite (run_bind _ _ c _ _ _ (binary_from_python_path_run w _ c)).
           reflexivity.
        -- reflexivity.
      * rewrite (run_bind _ _ c _ _ _ (run_print _ c)).
        unfold trace_of in IH' |- *. cbn [fst snd app commands_run].
        f_equal. exact IH'.
      * rewrite (run_bind _ _ c _ _ _ (run_print _ c)).
        unfold trace_of in IH' |- *. cbn [fst snd app commands_run].
        f_equal. exact IH'.
      * reflexivity.
    + unfold trace_of in IH' |- *. cbn [fst snd app commands_run]. exact IH'.
Qed.

(** X7: when no override is set, the commands the resolver starts are
    exactly these, in this order: going through the rules whose marker
    file is a regular file of the first folder, in the order of the
    rules ([pipenv], [poetry], [pyenv]), the command of each one, up to
    and including the first command that does not end with
    [FileNotFoundError] or [CalledProcessError].  So a rule whose marker
    file is present has its command started unless an earlier started
    command ended otherwise; no other command is started; and every
    command but the last one started ended in one of those two ways.
    With an override, no command is started at all. *)
Theorem resolver_starts_commands_of_present_markers_only :
  forall (w : World) (settings : DottedDict) (first : WorkspaceFolder)
         (others : list WorkspaceFolder) (c : cache),
    let ran :=
      commands_run
        (trace_of (resolve_python_path_from_venv w settings (first :: others) c)) in
    (truthy (dotted_get settings "python.pythonPath") = false ->
     ran = through_first (recovered w (path first))
             (map command (rules_with_marker w (path first))))
    /\ (exists rest, map command (rules_with_marker w (path first)) = ran ++ rest)
    /\ (forall before cmd behind,
          ran = before ++ cmd :: behind -> behind <> [] ->
          check_output w cmd (path first) = FileNotFoundError
          \/ check_output w cmd (path first) = CalledProcessError)
    /\ (truthy (dotted_get settings "python.pythonPath") = true -> ran = []).
Proof.
  intros w settings first others c. cbv zeta.
  unfold resolve_python_path_from_venv, rules_with_marker.
  destruct (truthy (dotted_get settings "python.pythonPath")).
  - unfold trace_of, ret. simpl. split; [discriminate|]. split; [|split].
    + eexists. reflexivity.
    + intros [|x before] cmd behind H; discriminate H.
    + reflexivity.
  - split.
    { intros _. apply run_rules_commands_exact; [auto|].
      apply search_subfolders_runs_nothing. }
    destruct (run_rules_commands w (path first) (venv_config_files w)
                (search_subfolders w (path first)) (fun r H => H)
                (search_subfolders_runs_nothing w (path first)) c)
      as [Hprefix Hfailed].
    split; [exact Hprefix|]. split; [exact Hfailed|]. discriminate.
Qed.

Lemma resolver_starts_commands_of_present_markers_only_witness :
  commands_run
    (trace_of (resolve_python_path_from_venv (posix_world host_two_tools) []
                 [proj] []))
  = [["pipenv"; "--py"]; ["pyenv"; "which"; "python"]].
Proof.
  rewrite (proj1 (resolver_starts_commands_of_present_markers_only
                    (posix_world host_two_tools) [] proj [] []) eq_refl).
  reflexivity.
Defined.

(* ================================================================== *)
(** ** Further properties: [on_pre_start] and the settings object *)
(* ================================================================== *)

Lemma dict_get_set_same d key v : dict_get (dict_set d key v) key = v.
Proof.
  induction d as [|[k x] rest IH]; simpl.
  - rewrite String.eqb_refl. reflexivity.
  - destruct (k =? key) eqn:Hk; simpl; rewrite Hk; [reflexivity | exact IH].
Qed.

Lemma dict_get_set_other d key key' v :
  key <> key' -> dict_get (dict_set d key v) key' = dict_get d key'.
Proof.
  intros Hne. induction d as [|[k x] rest IH]; simpl.
  - destruct (String.eqb_spec key key'); [contradiction|reflexivity].
  - destruct (String.eqb_spec k key) as [->|Hk]; simpl.
    + destruct (String.eqb_spec key key'); [contradiction|reflexivity].
    + destruct (k =? key'); [reflexivity | exact IH].
Qed.

(** Writing back the value that is already there changes nothing. *)
Lemma dict_set_same d key v :
  dict_get d key = v -> v <> VNone -> dict_set d key v = d.
Proof.
  intros Hget Hv. induction d as [|[k x] rest IH]; simpl in *.
  - congruence.
  - destruct (k =? key) eqn:Hk.
    + rewrite Hget. reflexivity.
    + rewrite (IH Hget). reflexivity.
Qed.

Lemma split_not_nil sep s : split sep s <> [].
Proof.
  destruct s as [|c r]; simpl; [discriminate|].
  destruct (Ascii.eqb c sep); [discriminate|].
  destruct (split sep r); discriminate.
Qed.

Lemma dotted_assign_cons d key rest v :
  rest <> [] ->
  dotted_assign d (key :: rest) v
  = dict_set d key
      (VDict (dotted_assign
                (match dict_get d key with VDict sub => sub | _ => [] end)
                rest v)).
Proof. destruct rest; [congruence | reflexivity]. Qed.

Lemma dotted_walk_assign_same keys :
  keys <> [] ->
  forall d v, dotted_walk (VDict (dotted_assign d keys v)) keys = v.
Proof.
  induction keys as [|key rest IH]; intros Hne d v; [congruence|].
  destruct rest as [|key2 rest].
  - simpl. apply dict_get_set_same.
  - rewrite dotted_assign_cons by discriminate.
    cbn [dotted_walk]. rewrite dict_get_set_same.
    apply IH. discriminate.
Qed.

Lemma dotted_walk_none keys : keys <> [] -> dotted_walk VNone keys = VNone.
Proof. destruct keys; [congruence | reflexivity]. Qed.

Lemma dotted_walk_not_dict x keys :
  keys <> [] -> (forall sub, x <> VDict sub) -> dotted_walk x keys = VNone.
Proof.
  destruct keys as [|k ks]; [congruence|]. intros _ Hx. simpl.
  destruct x; try reflexivity. exfalso. eapply Hx. reflexivity.
Qed.

Lemma dotted_walk_empty_dict keys :
  keys <> [] -> dotted_walk (VDict []) keys = VNone.
Proof.
  destruct keys as [|k [|k2 ks]]; [congruence | reflexivity | reflexivity].
Qed.

(** Assigning along one path leaves what is read along a path that
    leaves it at some key. *)
Lemma dotted_walk_assign_diverge common :
  forall d key rest key' rest' v,
    key <> key' ->
    dotted_walk (VDict (dotted_assign d (common ++ key :: rest) v))
      (common ++ key' :: rest')
    = dotted_walk (VDict d) (common ++ key' :: rest').
Proof.
  induction common as [|k0 common IH]; intros d key rest key' rest' v Hne.
  - cbn [app]. destruct rest as [|key2 rest].
    + simpl. rewrite dict_get_set_other by exact Hne. reflexivity.
    + rewrite dotted_assign_cons by discriminate.
      cbn [dotted_walk]. rewrite dict_get_set_other by exact Hne. reflexivity.
  - cbn [app]. rewrite dotted_assign_cons by (destruct common; discriminate).
    cbn [dotted_walk]. rewrite dict_get_set_same.
    rewrite IH by exact Hne.
    destruct (dict_get d k0) as [| | | | |sub] eqn:Hget; try reflexivity;
      rewrite dotted_walk_empty_dict by (destruct common; discriminate);
      symmetry; apply dotted_walk_not_dict;
      try (destruct common; discriminate); intros sub; discriminate.
Qed.

Lemma dotted_assign_same keys :
  forall d v,
    dotted_walk (VDict d) keys = v -> truthy v = true ->
    keys <> [] ->
    dotted_assign d keys v = d.
Proof.
  induction keys as [|key rest IH]; intros d v Hwalk Hv Hne; [congruence|].
  assert (Hnone : v <> VNone) by (intros ->; discriminate).
  destruct rest as [|key2 rest].
  - simpl in *. apply dict_set_same; assumption.
  - rewrite dotted_assign_cons by discriminate.
    cbn [dotted_walk] in Hwalk.
    destruct (dict_get d key) as [| | | | |sub] eqn:Hget;
      try (simpl in Hwalk; congruence).
    rewrite (IH sub v Hwalk Hv) by discriminate.
    apply dict_set_same; [exact Hget | discriminate].
Qed.

Lemma dotted_get_set_same settings p v :
  dotted_get (dotted_set settings p v) p = v.
Proof.
  unfold dotted_get, dotted_set. apply dotted_walk_assign_same, split_not_nil.
Qed.

Lemma py_or_python_truthy resolved : truthy (py_or resolved (VStr "python")) = true.
Proof.
  unfold py_or. destruct (truthy resolved) eqn:H; [exact H | reflexivity].
Qed.

Lemma on_pre_start_run w folders settings c resolved t c' :
  resolve_python_path_from_venv w settings folders c = (Ret resolved, t, c') ->
  on_pre_start w folders settings c
  = (Ret (dotted_set settings "python.pythonPath"
            (py_or resolved (VStr "python"))),
     t ++ [EvPrint (cls_name w ++ ": Using python path " ++ dquote
                    ++ format_value w (py_or resolved (VStr "python"))
                    ++ dquote)],
     c').
Proof.
  intros Hres. unfold on_pre_start.
  rewrite (run_bind _ _ c _ _ _ Hres).
  rewrite (run_bind _ _ c' _ _ _ (run_print _ c')).
  reflexivity.
Qed.

(** X8: when [on_pre_start] returns, the settings hold a true value
    under [python.pythonPath]: what the resolver returned if that is a
    true value, and the bare name [python] otherwise (when the resolver
    returned [None] or an empty string).  The last event is the line it
    prints.  Nothing else is changed in the settings: a dotted path that
    leaves [python.pythonPath] at its first key, or at its second key
    below [python], reads as before. *)
Theorem on_pre_start_writes_usable_path :
  forall (w : World) (folders : list WorkspaceFolder) (settings : DottedDict)
         (c : cache) (settings' : DottedDict) (t : list event) (c' : cache),
    on_pre_start w folders settings c = (Ret settings', t, c') ->
    truthy (dotted_get settings' "python.pythonPath") = true
    /\ (exists resolved,
          result_of (resolve_python_path_from_venv w settings folders c)
          = Ret resolved
          /\ dotted_get settings' "python.pythonPath"
             = (if truthy resolved then resolved else VStr "python"))
    /\ (exists line, last t (EvListdir "") = EvPrint line)
    /\ (forall q key rest,
          split "." q = key :: rest -> key <> "python" ->
          dotted_get settings' q = dotted_get settings q)
    /\ (forall q key rest,
          split "." q = "python" :: key :: rest -> key <> "pythonPath" ->
          dotted_get settings' q = dotted_get settings q).
Proof.
  intros w folders settings c settings' t c' Hrun.
  destruct (resolve_python_path_from_venv w settings folders c)
    as [[[resolved|e] t0] c0] eqn:Hres.
  - rewrite (on_pre_start_run w folders settings c resolved t0 c0 Hres) in Hrun.
    injection Hrun as <- <- <-.
    rewrite dotted_get_set_same.
    split; [apply py_or_python_truthy|].
    split; [exists resolved; split; reflexivity|].
    split; [eexists; apply last_last|].
    split.
    + intros q key rest Hq Hne. unfold dotted_get, dotted_set. rewrite Hq.
      apply (dotted_walk_assign_diverge [] settings "python" ["pythonPath"]).
      congruence.
    + intros q key rest Hq Hne. unfold dotted_get, dotted_set. rewrite Hq.
      apply (dotted_walk_assign_diverge ["python"] settings "pythonPath" []).
      congruence.
  - unfold on_pre_start in Hrun.
    rewrite (run_bind_raise _ _ c _ _ _ Hres) in Hrun. discriminate.
Qed.

Lemma on_pre_start_writes_usable_path_witness :
  truthy (dotted_get
            [("python", VDict [("analysis", VDict []); ("pythonPath", VStr "python")])]
            "python.pythonPath") = true.
Proof.
  apply (on_pre_start_writes_usable_path (posix_world host_tree) [src_folder]
           [("python", VDict [("analysis", VDict [])])] []
           [("python", VDict [("analysis", VDict []); ("pythonPath", VStr "python")])]
           (trace_of (on_pre_start (posix_world host_tree) [src_folder]
                        [("python", VDict [("analysis", VDict [])])] []))
           [] eq_refl).
Defined.

(** X9: with an override, [on_pre_start] is a no-op on the settings: it
    returns them exactly as they were, its only event is the line it
    prints, and the memo table is untouched.  So a second run of
    [on_pre_start] on the settings a first run left behind changes
    nothing and looks at nothing. *)
Theorem on_pre_start_keeps_override :
  forall (w : World) (folders : list WorkspaceFolder) (settings : DottedDict)
         (c : cache),
    truthy (dotted_get settings "python.pythonPath") = true ->
    on_pre_start w folders settings c
    = (Ret settings,
       [EvPrint (cls_name w ++ ": Using python path " ++ dquote
                 ++ format_value w (dotted_get settings "python.pythonPath")
                 ++ dquote)],
       c).
Proof.
  intros w folders settings c Hoverride.
  assert (Hres : resolve_python_path_from_venv w settings folders c
                 = (Ret (dotted_get settings "python.pythonPath"), [], c)).
  { unfold resolve_python_path_from_venv. rewrite Hoverride. reflexivity. }
  rewrite (on_pre_start_run w folders settings c _ [] c Hres).
  unfold py_or. rewrite Hoverride. cbn [app].
  assert (Hsame : dotted_set settings "python.pythonPath"
                    (dotted_get settings "python.pythonPath") = settings).
  { unfold dotted_set, dotted_get in *.
    apply (dotted_assign_same _ settings _ eq_refl Hoverride). discriminate. }
  rewrite Hsame. reflexivity.
Qed.

Lemma on_pre_start_keeps_override_witness :
  let w := posix_world host_tree in
  let after_first := [("python", VDict [("pythonPath", VStr "python")])] in
  result_of (on_pre_start w [src_folder] [] []) = Ret after_first
  /\ on_pre_start w [src_folder] after_first []
     = (Ret after_first,
        [EvPrint ("LSP-pyright: Using python path " ++ dquote ++ "python" ++ dquote)],
        []).
Proof.
  cbv zeta. split; [reflexivity|].
  apply (on_pre_start_keeps_override (posix_world host_tree) [src_folder]
           [("python", VDict [("pythonPath", VStr "python")])] [] eq_refl).
Defined.

(** X10: when [Pipfile] is a file of the first folder and [pipenv --py]
    exits with status zero, the resolver returns the stripped output as
    it is, whatever it says (it may be empty, and is not tested), after
    these two events only: no other rule and no folder is looked at.
    [on_pre_start] then writes that output, or the bare name [python]
    when the output is empty. *)
Theorem pipenv_answer_is_returned_untested :
  forall (w : World) (settings : DottedDict) (first : WorkspaceFolder)
         (others : list WorkspaceFolder) (c : cache) (text : string),
    truthy (dotted_get settings "python.pythonPath") = false ->
    os_path_isfile w (os_path_join w (path first) ["Pipfile"]) = true ->
    check_output w ["pipenv"; "--py"] (path first) = Stdout text ->
    resolve_python_path_from_venv w settings (first :: others) c
    = (Ret (VStr (strip text)),
       [EvIsfile (os_path_join w (path first) ["Pipfile"]);
        EvRun ["pipenv"; "--py"] (path first) (platform w =? "windows")],
       c)
    /\ result_of (on_pre_start w (first :: others) settings c)
       = Ret (dotted_set settings "python.pythonPath"
                (VStr (if strip text =? "" then "python" else strip text))).
Proof.
  intros w settings first others c text Hoverride Hfile Hout.
  assert (Hres : resolve_python_path_from_venv w settings (first :: others) c
                 = (Ret (VStr (strip text)),
                    [EvIsfile (os_path_join w (path first) ["Pipfile"]);
                     EvRun ["pipenv"; "--py"] (path first)
                       (platform w =? "windows")], c)).
  { unfold resolve_python_path_from_venv. rewrite Hoverride.
    unfold venv_config_files. cbn [run_rules config_file].
    rewrite (run_bind _ _ c _ _ _ (run_io_isfile w _ c)).
    unfold join. rewrite Hfile.
    rewrite (run_bind _ _ c _ _ _ (run_io_check_output w _ _ c)).
    unfold command. cbn [command_head command_args post_processing].
    rewrite Hout. reflexivity. }
  split; [exact Hres|].
  rewrite (on_pre_start_run w _ settings c _ _ c Hres).
  unfold result_of, py_or. simpl.
  destruct (strip text =? ""); reflexivity.
Qed.

Lemma pipenv_answer_is_returned_untested_witness :
  result_of (on_pre_start (posix_world host_pipenv_silent) [proj] [] [])
  = Ret [("python", VDict [("pythonPath", VStr "python")])]
  /\ valid_venv (posix_world host_pipenv_silent) "/proj" ".venv" = true.
Proof.
  split; [|reflexivity].
  apply (proj2 (pipenv_answer_is_returned_untested
                  (posix_world host_pipenv_silent) [] proj [] [] "
" eq_refl eq_refl eq_refl)).
Defined.

(* ================================================================== *)
(** ** Further properties: what does not touch the memo table *)
(* ================================================================== *)

Lemma cache_free_ret {A} (a : A) : cache_free (ret a).
Proof. exists (Ret a), []. reflexivity. Qed.

Lemma cache_free_raise {A} (e : exn) : cache_free (@raise A e).
Proof. exists (Raise e), []. reflexivity. Qed.

Lemma cache_free_emit e : cache_free (emit e).
Proof. exists (Ret tt), [e]. reflexivity. Qed.

Lemma cache_free_bind {A B} (m : M A) (k : A -> M B) :
  cache_free m -> (forall a, cache_free (k a)) -> cache_free (bind m k).
Proof.
  intros [o [t Hm]] Hk. destruct o as [a|e].
  - destruct (Hk a) as [o2 [t2 Hka]].
    exists o2, (t ++ t2). intros c. unfold bind. rewrite Hm, Hka. reflexivity.
  - exists (Raise e), t. intros c. unfold bind. rewrite Hm. reflexivity.
Qed.

Section CacheFree.

Variable w : World.

Lemma cache_free_isfile p : cache_free (io_isfile w p).
Proof. apply cache_free_bind; [apply cache_free_emit | intros; apply cache_free_ret]. Qed.

Lemma cache_free_isdir p : cache_free (io_isdir w p).
Proof. apply cache_free_bind; [apply cache_free_emit | intros; apply cache_free_ret]. Qed.

Lemma cache_free_listdir p : cache_free (io_listdir w p).
Proof.
  apply cache_free_bind; [apply cache_free_emit|]. intros _.
  destruct (os_listdir w p); [apply cache_free_ret | apply cache_free_raise].
Qed.

Lemma cache_free_binary_from_python_path dir :
  cache_free (binary_from_python_path w dir).
Proof.
  apply cache_free_bind; [apply cache_free_isfile | intros; apply cache_free_ret].
Qed.

Lemma cache_free_binary_from_venv root child :
  cache_free (binary_from_venv w root child).
Proof.
  apply cache_free_bind; [apply cache_free_isfile|].
  intros [|]; [apply cache_free_binary_from_python_path | apply cache_free_ret].
Qed.

Lemma cache_free_search_children root skip files after :
  cache_free after -> cache_free (search_children w root skip files after).
Proof.
  intros Hafter. induction files as [|file rest IH]; simpl; [exact Hafter|].
  destruct (skip file); [exact IH|].
  apply cache_free_bind; [apply cache_free_binary_from_venv|].
  intros [b|]; [apply cache_free_ret | exact IH].
Qed.

Lemma cache_free_search_subfolders root : cache_free (search_subfolders w root).
Proof.
  apply cache_free_search_children.
  apply cache_free_bind; [apply cache_free_listdir|].
  intros files. apply cache_free_search_children, cache_free_ret.
Qed.

Lemma cache_free_run_rules root rules after :
  (forall r, In r rules -> In r (venv_config_files w)) ->
  cache_free after -> cache_free (run_rules w root rules after).
Proof.
  intros Hrules Hafter. induction rules as [|r rest IH]; simpl; [exact Hafter|].
  assert (Hr : In r (venv_config_files w)) by (apply Hrules; left; reflexivity).
  assert (IH' := IH (fun r' H => Hrules r' (or_intror H))). clear IH.
  apply cache_free_bind; [apply cache_free_isfile|].
  intros [|]; [|exact IH'].
  apply cache_free_bind.
  { apply cache_free_bind; [apply cache_free_emit | intros; apply cache_free_ret]. }
  intros [text| | |].
  - destruct (post_processing r) as [post|] eqn:Hpost; [|apply cache_free_ret].
    rewrite (post_processing_of_rules w r post Hr Hpost).
    apply cache_free_bind; [apply cache_free_binary_from_python_path|].
    intros; apply cache_free_ret.
  - apply cache_free_bind; [apply cache_free_emit | intros; exact IH'].
  - apply cache_free_bind; [apply cache_free_emit | intros; exact IH'].
  - apply cache_free_raise.
Qed.

Lemma cache_free_resolver settings folders :
  cache_free (resolve_python_path_from_venv w settings folders).
Proof.
  unfold resolve_python_path_from_venv.
  destruct (truthy _); [apply cache_free_ret|].
  destruct folders as [|first others]; [apply cache_free_ret|].
  apply cache_free_run_rules; [auto | apply cache_free_search_subfolders].
Qed.

Lemma cache_free_keep_dirs dep_dirs : cache_free (keep_dirs w dep_dirs).
Proof.
  induction dep_dirs as [|p rest IH]; simpl; [apply cache_free_ret|].
  apply cache_free_bind; [apply cache_free_isdir|]. intros b.
  apply cache_free_bind; [exact IH | intros; apply cache_free_ret].
Qed.

Lemma cache_free_find_package_dependency_dirs py_ver :
  cache_free (find_package_dependency_dirs w py_ver).
Proof.
  unfold find_package_dependency_dirs.
  destruct (list_remove _ _); [apply cache_free_keep_dirs | apply cache_free_raise].
Qed.

End CacheFree.

(** X11: the resolver that [on_pre_start] calls, [on_pre_start] itself,
    [find_package_dependency_dirs] and [on_settings_changed] neither
    read nor change the memo table of [is_project_root]: from any two
    tables they give the same outcome and the same events, and they hand
    the table on as they got it.  The project-root test plays no part in
    them. *)
Theorem primary_paths_do_not_use_the_memo_table :
  forall (w : World) (editor : Editor) (settings : DottedDict)
         (folders : list WorkspaceFolder) (py_ver : Z * Z),
    cache_free (resolve_python_path_from_venv w settings folders)
    /\ cache_free (on_pre_start w folders settings)
    /\ cache_free (find_package_dependency_dirs w py_ver)
    /\ cache_free (on_settings_changed w editor settings).
Proof.
  intros w editor settings folders py_ver.
  split; [apply cache_free_resolver|].
  split; [|split; [apply cache_free_find_package_dependency_dirs|]].
  - unfold on_pre_start. apply cache_free_bind; [apply cache_free_resolver|].
    intros resolved. apply cache_free_bind; [apply cache_free_emit|].
    intros; apply cache_free_ret.
  - unfold on_settings_changed. apply cache_free_bind.
    + unfold get_dev_environment.
      destruct (get_plugin_setting editor "dev_environment" VNone);
        try apply cache_free_ret;
        (apply cache_free_bind; [apply cache_free_emit | intros; apply cache_free_ret]).
    + intros dev. destruct (existsb _ _); [|apply cache_free_ret].
      destruct (py_or _ _); try apply cache_free_ret.
      apply cache_free_bind; [apply cache_free_find_package_dependency_dirs|].
      intros; apply cache_free_ret.
Qed.

(* ================================================================== *)
(** ** Further properties: the dependency directories and the settings hook *)
(* ================================================================== *)

Lemma find_package_dependency_dirs_run w py_ver c :
  match list_remove (packages_path w) (rewritten_sys_path w py_ver) with
  | Some others =>
      find_package_dependency_dirs w py_ver c
      = (Ret (filter (os_path_isdir w)
                (stubs_dir w :: others ++ [packages_path w])),
         map EvIsdir (stubs_dir w :: others ++ [packages_path w]), c)
  | None => find_package_dependency_dirs w py_ver c = (Raise ValueError, [], c)
  end.
Proof.
  unfold find_package_dependency_dirs, rewritten_sys_path, stubs_dir.
  destruct (list_remove _ _) as [others|].
  - unfold join. apply keep_dirs_run.
  - reflexivity.
Qed.

Lemma last_filter_snoc {A} (f : A -> bool) (l : list A) (x d : A) :
  f x = true -> last (filter f (l ++ [x])) d = x.
Proof.
  intros Hx. rewrite filter_app. simpl. rewrite Hx. apply last_last.
Qed.

(** X12: when [find_package_dependency_dirs] returns, its list is the
    candidate list with the entries that are not directories left out,
    in the order of the candidates: the stubs directory first, then the
    rewritten module search path without the first occurrence of the
    [Packages] path, then the [Packages] path.  So the stubs directory,
    when it exists, is the first entry, and the [Packages] path, when it
    is a directory, is the last one; each candidate is tested exactly
    once, in that order. *)
Theorem dependency_dirs_are_ordered :
  forall (w : World) (py_ver : Z * Z) (c : cache) (dirs : list string),
    result_of (find_package_dependency_dirs w py_ver c) = Ret dirs ->
    exists others,
      list_remove (packages_path w) (rewritten_sys_path w py_ver) = Some others
      /\ dirs = filter (os_path_isdir w)
                  (stubs_dir w :: others ++ [packages_path w])
      /\ trace_of (find_package_dependency_dirs w py_ver c)
         = map EvIsdir (stubs_dir w :: others ++ [packages_path w])
      /\ (os_path_isdir w (stubs_dir w) = true ->
          hd_error dirs = Some (stubs_dir w))
      /\ (os_path_isdir w (packages_path w) = true ->
          last dirs "" = packages_path w).
Proof.
  intros w py_ver c dirs Hres.
  assert (Hrun := find_package_dependency_dirs_run w py_ver c).
  destruct (list_remove (packages_path w) (rewritten_sys_path w py_ver))
    as [others|]; rewrite Hrun in *; [|discriminate].
  unfold result_of in Hres. cbn [fst] in Hres. injection Hres as <-.
  exists others. split; [reflexivity|]. split; [reflexivity|].
  split; [reflexivity|]. split.
  - intros Hstubs. simpl. rewrite Hstubs. reflexivity.
  - intros Hpk.
    exact (last_filter_snoc (os_path_isdir w) (stubs_dir w :: others)
             (packages_path w) "" Hpk).
Qed.

Lemma dependency_dirs_are_ordered_witness :
  hd_error
    ["/home/u/.cache/sublime-text/Package Storage/LSP-pyright/resources/typings/sublime_text";
     "/opt/sublime_text/Lib/python38";
     "/home/u/.config/sublime-text/Packages"]
  = Some (stubs_dir (posix_world host_sublime))
  /\ last
       ["/home/u/.cache/sublime-text/Package Storage/LSP-pyright/resources/typings/sublime_text";
        "/opt/sublime_text/Lib/python38";
        "/home/u/.config/sublime-text/Packages"] ""
     = packages_path (posix_world host_sublime).
Proof.
  assert (Hres : result_of (find_package_dependency_dirs
                              (posix_world host_sublime) (3, 8)%Z [])
                 = Ret ["/home/u/.cache/sublime-text/Package Storage/LSP-pyright/resources/typings/sublime_text";
                        "/opt/sublime_text/Lib/python38";
                        "/home/u/.config/sublime-text/Packages"])
    by (vm_compute; reflexivity).
  destruct (dependency_dirs_are_ordered (posix_world host_sublime) (3, 8)%Z []
              _ Hres) as [others [_ [_ [_ [Hfirst Hlast]]]]].
  split; [apply Hfirst | apply Hlast]; vm_compute; reflexivity.
Defined.

Lemma get_dev_environment_run editor settings c :
  get_dev_environment editor settings c
  = match get_plugin_setting editor "dev_environment" VNone with
    | VNone => (Ret (dotted_get settings "pyright.dev_environment"), [], c)
    | v => (Ret v, [EvPrint deprecation_line], c)
    end.
Proof.
  unfold get_dev_environment.
  destruct (get_plugin_setting editor "dev_environment" VNone); reflexivity.
Qed.

(** X13: what [on_settings_changed] does, by the development
    environment that [get_dev_environment] gives.  For any value other
    than the three names the settings are returned unchanged.  For
    [sublime_text] (target: the version the plugin runs on),
    [sublime_text_33] (3.3) and [sublime_text_38] (3.8): a true value
    under [python.analysis.extraPaths] that is not a list raises
    [AttributeError] before any directory is tested; otherwise, when the
    rewritten module search path holds the [Packages] path, the
    directories found are appended after the entries already listed,
    which are kept, and the interpreter path of the settings is not
    touched; when it does not, [ValueError] is raised. *)
Theorem on_settings_changed_appends_dependency_dirs :
  forall (w : World) (editor : Editor) (settings : DottedDict) (c : cache)
         (dev : value) (t : list event) (c0 : cache),
    get_dev_environment editor settings c = (Ret dev, t, c0) ->
    ((forall name,
        In name ["sublime_text"; "sublime_text_33"; "sublime_text_38"] ->
        dev <> VStr name) ->
     on_settings_changed w editor settings c = (Ret (Settings settings), t, c0))
    /\ (forall name py_ver,
          In (name, py_ver)
             [("sublime_text", version_info editor);
              ("sublime_text_33", (3, 3)%Z);
              ("sublime_text_38", (3, 8)%Z)] ->
          dev = VStr name ->
          let old := dotted_get settings "python.analysis.extraPaths" in
          (truthy old = true -> (forall paths, old <> VList paths) ->
           on_settings_changed w editor settings c = (Ret AttributeError, t, c0))
          /\ (forall paths,
                old = VList paths \/ (truthy old = false /\ paths = []) ->
                (In (packages_path w) (rewritten_sys_path w py_ver) ->
                 exists dirs t',
                   find_package_dependency_dirs w py_ver c0 = (Ret dirs, t', c0)
                   /\ Forall (fun p => os_path_isdir w p = true) dirs
                   /\ on_settings_changed w editor settings c
                      = (Ret (Settings
                                (dotted_set settings "python.analysis.extraPaths"
                                   (VList (paths ++ map VStr dirs)))),
                         t ++ t', c0)
                   /\ dotted_get
                        (dotted_set settings "python.analysis.extraPaths"
                           (VList (paths ++ map VStr dirs)))
                        "python.analysis.extraPaths"
                      = VList (paths ++ map VStr dirs)
                   /\ dotted_get
                        (dotted_set settings "python.analysis.extraPaths"
                           (VList (paths ++ map VStr dirs)))
                        "python.pythonPath"
                      = dotted_get settings "python.pythonPath")
                /\ (~ In (packages_path w) (rewritten_sys_path w py_ver) ->
                    result_of (on_settings_changed w editor settings c)
                    = Raise ValueError))).
Proof.
  intros w editor settings c dev t c0 Hdev. split.
  - intros Hother. unfold on_settings_changed.
    rewrite (run_bind _ _ c _ _ _ Hdev).
    assert (Hno : existsb (eq_str dev)
                    ["sublime_text"; "sublime_text_33"; "sublime_text_38"] = false).
    { destruct dev as [| | |s| |]; try reflexivity. simpl.
      destruct (String.eqb_spec s "sublime_text") as [->|_];
        [exfalso; apply (Hother "sublime_text"); simpl; auto|].
      destruct (String.eqb_spec s "sublime_text_33") as [->|_];
        [exfalso; apply (Hother "sublime_text_33"); simpl; auto|].
      destruct (String.eqb_spec s "sublime_text_38") as [->|_];
        [exfalso; apply (Hother "sublime_text_38"); simpl; auto|].
      reflexivity. }
    rewrite Hno. unfold result_of, trace_of, cache_of, ret. simpl.
    rewrite app_nil_r. reflexivity.
  - intros name py_ver Hin -> old.
    assert (Hstep :
              on_settings_changed w editor settings c
              = after_events t
                  ((match py_or old (VList []) with
                    | VList paths =>
                        bind (find_package_dependency_dirs w py_ver)
                          (fun dirs =>
                             ret (Settings
                                    (dotted_set settings "python.analysis.extraPaths"
                                       (VList (paths ++ map VStr dirs)))))
                    | _ => ret AttributeError
                    end) c0)).
    { unfold on_settings_changed. rewrite (run_bind _ _ c _ _ _ Hdev).
      unfold after_events.
      destruct Hin as [H | [H | [H | []]]]; injection H as <- <-; reflexivity. }
    rewrite Hstep. clear Hstep. split.
    + intros Htrue Hnot. unfold py_or. rewrite Htrue.
      destruct old as [| | | |l|]; try (unfold after_events, result_of, trace_of,
        cache_of, ret; simpl; rewrite app_nil_r; reflexivity).
      exfalso. apply (Hnot l). reflexivity.
    + intros paths Hold.
      assert (Hor : py_or old (VList []) = VList paths).
      { unfold py_or. destruct Hold as [-> | [Hfalse ->]].
        - destruct paths; reflexivity.
        - rewrite Hfalse. reflexivity. }
      rewrite Hor. clear Hor.
      assert (Hrun := find_package_dependency_dirs_run w py_ver c0).
      split; intros Hpk.
      * destruct (list_remove_some _ _ Hpk) as [others Hrem].
        rewrite Hrem in Hrun.
        eexists _, _. split; [exact Hrun|]. split.
        { apply Forall_forall. intros p Hp. apply filter_In in Hp. apply Hp. }
        split.
        { rewrite (run_bind _ _ c0 _ _ _ Hrun).
          unfold after_events, result_of, trace_of, cache_of, ret. simpl.
          rewrite app_nil_r. reflexivity. }
        split; [apply dotted_get_set_same|].
        unfold dotted_get, dotted_set.
        apply (dotted_walk_assign_diverge ["python"] settings "analysis"
                 ["extraPaths"] "pythonPath" []).
        discriminate.
      * rewrite (list_remove_none _ _ Hpk) in Hrun.
        rewrite (run_bind_raise _ _ c0 _ _ _ Hrun). reflexivity.
Qed.

Lemma on_settings_changed_appends_dependency_dirs_witness :
  result_of (on_settings_changed (posix_world host_sublime) editor_38
               settings_sublime [])
  = Ret (Settings
           [("pyright", VDict [("dev_environment", VStr "sublime_text")]);
            ("python",
             VDict [("pythonPath", VStr "/usr/bin/python3");
                    ("analysis",
                     VDict [("extraPaths",
                             VList [VStr "/my/lib";
                                    VStr "/home/u/.cache/sublime-text/Package Storage/LSP-pyright/resources/typings/sublime_text";
                                    VStr "/opt/sublime_text/Lib/python38";
                                    VStr "/home/u/.config/sublime-text/Packages"])])])]).
Proof.
  destruct (proj2 (on_settings_changed_appends_dependency_dirs
                     (posix_world host_sublime) editor_38 settings_sublime []
                     (VStr "sublime_text") [] [] eq_refl)
              "sublime_text" (3, 8)%Z (or_introl eq_refl) eq_refl)
    as [_ Hlist].
  destruct (proj1 (Hlist [VStr "/my/lib"] (or_introl eq_refl)))
    as [dirs [t' [Hdirs [_ [Hrun _]]]]].
  - vm_compute. tauto.
  - rewrite Hrun. vm_compute in Hdirs. injection Hdirs as <- _. reflexivity.
Defined.

(* ================================================================== *)
(** ** Further properties: the rewriting of the search path *)
(* ================================================================== *)

Lemma retarget_length a p s : String.length (retarget a p s) = String.length s.
Proof.
  revert p. induction s as [|c r IH]; intros p; simpl; [reflexivity|].
  destruct p as [[|k]|]; simpl; rewrite ?IH; try reflexivity.
  destruct (match_group_len (String c r)); simpl; rewrite IH; reflexivity.
Qed.


Lemma is38_cases c : is38 c = true -> c = "3"%char \/ c = "8"%char.
Proof.
  unfold is38. intros H. apply orb_prop in H.
  destruct H as [H|H]; apply Ascii.eqb_eq in H; auto.
Qed.

Lemma lower_is_3 c : Ascii.eqb (lower c) "3" = true -> c = "3"%char.
Proof.
  destruct c as [[] [] [] [] [] [] [] []]; vm_compute; intros H;
    try discriminate H; reflexivity.
Qed.

(** A character that can stand before a rewritten one is no letter [n]. *)
Lemma after_3_or_dot_not_n c :
  c = "3"%char \/ c = "."%char -> Ascii.eqb (lower c) "n" = false.
Proof. intros [-> | ->]; reflexivity. Qed.

Lemma rewritten_step_letter prev c c' p :
  (c' = c \/ (is38 c = true /\ is38 c' = true
              /\ (prev = "3"%char \/ prev = "."%char))) ->
  Ascii.eqb "3" p = false -> Ascii.eqb "8" p = false ->
  Ascii.eqb (lower c') p = Ascii.eqb (lower c) p.
Proof.
  intros [-> | [Hc [Hc' _]]] H3 H8; [reflexivity|].
  destruct (is38_cases c Hc) as [-> | ->];
    destruct (is38_cases c' Hc') as [-> | ->];
    change (lower "3") with "3"%char; change (lower "8") with "8"%char;
    rewrite ?H3, ?H8; reflexivity.
Qed.

Lemma istartswith_3_rewritten prev s s' :
  rewritten prev s s' ->
  Ascii.eqb (lower prev) "n" = true ->
  istartswith "3" s' = istartswith "3" s.
Proof.
  intros H Hprev.
  destruct s as [|c r]; destruct s' as [|c' r']; simpl in H; try contradiction;
    [reflexivity|].
  destruct H as [[-> | [_ [_ Hp]]] _]; [reflexivity|].
  rewrite (after_3_or_dot_not_n prev Hp) in Hprev. discriminate.
Qed.

Lemma istartswith_n3_rewritten prev s s' :
  rewritten prev s s' ->
  istartswith "n3" s' = istartswith "n3" s.
Proof.
  intros H.
  destruct s as [|c r]; destruct s' as [|c' r']; simpl in H; try contradiction;
    [reflexivity|].
  destruct H as [Hc Hr].
  change (istartswith "n3" (String c' r'))
    with (Ascii.eqb (lower c') "n" && istartswith "3" r').
  change (istartswith "n3" (String c r))
    with (Ascii.eqb (lower c) "n" && istartswith "3" r).
  rewrite (rewritten_step_letter prev c c' "n" Hc eq_refl eq_refl).
  destruct (Ascii.eqb (lower c) "n") eqn:Hn; [|reflexivity].
  cbn [andb]. apply (istartswith_3_rewritten c r r' Hr Hn).
Qed.

Lemma istartswith_letter_rewritten p pat :
  Ascii.eqb "3" p = false -> Ascii.eqb "8" p = false ->
  (forall prev s s', rewritten prev s s' -> istartswith pat s' = istartswith pat s) ->
  forall prev s s',
    rewritten prev s s' ->
    istartswith (String p pat) s' = istartswith (String p pat) s.
Proof.
  intros H3 H8 IH prev s s' H.
  destruct s as [|c r]; destruct s' as [|c' r']; simpl in H; try contradiction;
    [reflexivity|].
  destruct H as [Hc Hr]. cbn [istartswith].
  rewrite (rewritten_step_letter prev c c' p Hc H3 H8).
  rewrite (IH c r r' Hr). reflexivity.
Qed.

Lemma istartswith_python3_rewritten prev s s' :
  rewritten prev s s' ->
  istartswith "python3" s' = istartswith "python3" s.
Proof.
  revert prev s s'.
  do 5 (apply istartswith_letter_rewritten; [reflexivity | reflexivity |]).
  apply istartswith_n3_rewritten.
Qed.


Lemma rewritten_take m :
  forall prev s s',
    rewritten prev s s' ->
    rewritten prev (substring 0 m s) (substring 0 m s').
Proof.
  induction m as [|m IH]; intros prev s s' H.
  - destruct s; destruct s'; simpl in *; auto.
  - destruct s as [|c r]; destruct s' as [|c' r']; simpl in H; try contradiction.
    + exact I.
    + destruct H as [Hc Hr]. cbn [substring rewritten].
      split; [exact Hc | apply IH, Hr].
Qed.

Lemma rewritten_substring n m :
  forall prev s s',
    rewritten prev s s' ->
    exists prev', rewritten prev' (substring n m s) (substring n m s').
Proof.
  induction n as [|n IH]; intros prev s s' H.
  - exists prev. apply rewritten_take, H.
  - destruct s as [|c r]; destruct s' as [|c' r']; simpl in H; try contradiction.
    + exists prev. destruct m; exact I.
    + destruct H as [_ Hr]. cbn [substring]. apply (IH c r r' Hr).
Qed.

Lemma is38_not_dot c : is38 c = true -> Ascii.eqb c "." = false.
Proof. intros H. destruct (is38_cases c H) as [-> | ->]; reflexivity. Qed.

(** The pattern matches a string and its rewriting alike. *)
Lemma match_group_len_rewritten prev s s' :
  rewritten prev s s' -> match_group_len s' = match_group_len s.
Proof.
  intros H. unfold match_group_len.
  rewrite (istartswith_python3_rewritten prev s s' H).
  destruct (istartswith "python3" s); [|reflexivity].
  destruct (rewritten_substring 7 2 prev s s' H) as [prev' Ht].
  destruct (substring 7 2 s) as [|c1 [|c2 t]];
    destruct (substring 7 2 s') as [|c1' [|c2' t']];
    simpl in Ht; try tauto.
  - destruct Ht as [[-> | [H1 [H1' _]]] _]; [reflexivity|].
    rewrite H1, H1'. reflexivity.
  - destruct Ht as [[-> | [H1 [H1' _]]] [[-> | [H2 [H2' _]]] _]].
    + reflexivity.
    + rewrite H2, H2'. reflexivity.
    + rewrite (is38_not_dot c1 H1), (is38_not_dot c1' H1'), H1, H1'. reflexivity.
    + rewrite (is38_not_dot c1 H1), (is38_not_dot c1' H1'), H1, H1'. reflexivity.
Qed.

(** Where the pattern matches with a group of [n] characters, the
    character [n] places on is a [3] or an [8] after a [3] or a dot. *)
Lemma match_group_len_digit_ahead c r n :
  match_group_len (String c r) = Some n ->
  digit_ahead (n - 1) c r /\ (n = 7 \/ n = 8).
Proof.
  unfold match_group_len.
  destruct (istartswith "python3" (String c r)) eqn:Hpre; [|discriminate].
  destruct r as [|c1 [|c2 [|c3 [|c4 [|c5 [|c6 t]]]]]];
    try (cbn [istartswith] in Hpre; rewrite ?andb_false_r in Hpre; discriminate Hpre).
  cbn [istartswith] in Hpre.
  do 6 (apply andb_prop in Hpre; destruct Hpre as [_ Hpre]).
  apply andb_prop in Hpre. destruct Hpre as [H6 _].
  apply lower_is_3 in H6. subst c6.
  cbn [substring].
  destruct t as [|c7 [|c8 t]]; cbn [substring].
  - discriminate.
  - destruct (is38 c7) eqn:H7; [|discriminate].
    intros H. injection H as <-. cbn. auto.
  - destruct (Ascii.eqb c7 ".") eqn:Hdot.
    + apply Ascii.eqb_eq in Hdot. subst c7.
      destruct (is38 c8) eqn:H8; [|discriminate].
      intros H. injection H as <-. cbn. auto.
    + destruct (is38 c7) eqn:H7; [|discriminate].
      intros H. injection H as <-. cbn. auto.
Qed.

Lemma digit_ahead_length k :
  forall prev s, digit_ahead k prev s -> k < String.length s.
Proof.
  induction k as [|k IH]; intros prev [|c r] H; simpl in *; try contradiction.
  - lia.
  - apply IH in H. lia.
Qed.

Section Retarget.

Variable a : ascii.
Hypothesis a38 : is38 a = true.

Lemma retarget_rewritten s :
  forall p prev,
    match p with Some k => digit_ahead k prev s | None => True end ->
    rewritten prev s (retarget a p s).
Proof.
  induction s as [|c r IH]; intros p prev Hp.
  - destruct p as [k|]; [destruct k; contradiction | exact I].
  - destruct p as [[|k]|]; cbn [retarget rewritten].
    + destruct Hp as [Hprev Hc]. split; [right; auto|]. apply IH. exact I.
    + split; [left; reflexivity|]. apply IH. exact Hp.
    + destruct (match_group_len (String c r)) as [n|] eqn:Hm;
        cbn [rewritten]; (split; [left; reflexivity|]); apply IH.
      * apply (match_group_len_digit_ahead c r n Hm).
      * exact I.
Qed.

(** The aligned form computes what [re_sub_from] computes. *)
Lemma re_sub_from_retarget s :
  re_sub_from (String a "") 0 s = retarget a None s
  /\ forall k, k < String.length s ->
       (substring 0 k s ++ String a (re_sub_from (String a "") (S k) s))%string
       = retarget a (Some k) s.
Proof.
  induction s as [|c r [IH0 IHk]].
  - split; [reflexivity|]. intros k Hk. simpl in Hk. lia.
  - split.
    + cbn [re_sub_from retarget].
      destruct (match_group_len (String c r)) as [n|] eqn:Hm.
      * destruct (match_group_len_digit_ahead c r n Hm) as [Hahead Hn].
        apply digit_ahead_length in Hahead.
        destruct n as [|n]; [lia|].
        replace (S n - 1) with n in * by lia.
        cbn [substring append]. rewrite (IHk n Hahead). reflexivity.
      * rewrite IH0. reflexivity.
    + intros [|k] Hk; cbn [re_sub_from retarget substring append].
      * rewrite IH0. reflexivity.
      * simpl in Hk. rewrite (IHk k ltac:(lia)). reflexivity.
Qed.

End Retarget.

Lemma retarget_retarget a1 a2 :
  is38 a1 = true ->
  forall s p prev,
    match p with Some k => digit_ahead k prev s | None => True end ->
    retarget a2 p (retarget a1 p s) = retarget a2 p s.
Proof.
  intros H1. induction s as [|c r IH]; intros p prev Hp; [reflexivity|].
  destruct p as [[|k]|].
  - cbn [retarget]. rewrite (IH None a1 I). reflexivity.
  - cbn [retarget]. rewrite (IH (Some k) c Hp). reflexivity.
  - assert (Hrw := retarget_rewritten a1 H1 (String c r) None prev I).
    apply match_group_len_rewritten in Hrw.
    cbn [retarget] in Hrw |- *.
    destruct (match_group_len (String c r)) as [n|] eqn:Hm.
    + cbn [retarget]. rewrite Hrw.
      rewrite (IH (Some (n - 1)) c
                 (proj1 (match_group_len_digit_ahead c r n Hm))).
      reflexivity.
    + cbn [retarget]. rewrite Hrw. rewrite (IH None c I). reflexivity.
Qed.

(** X14: the rewriting of the module search path for a target version
    keeps the length of every path, and the last target wins: rewriting
    for one version a path that was rewritten for another (or for the
    same) gives what rewriting the original path for that version gives.
    In particular the rewriting is idempotent. *)
Theorem re_sub_python3_last_target_wins :
  forall (d1 d2 s : string),
    In d1 ["3"; "8"] -> In d2 ["3"; "8"] ->
    re_sub_python3 d2 (re_sub_python3 d1 s) = re_sub_python3 d2 s
    /\ String.length (re_sub_python3 d1 s) = String.length s.
Proof.
  intros d1 d2 s H1 H2.
  assert (Hd : forall d, In d ["3"; "8"] ->
            exists a, d = String a "" /\ is38 a = true).
  { intros d [<- | [<- | []]]; eexists; split; reflexivity. }
  destruct (Hd d1 H1) as [a1 [-> Ha1]]. destruct (Hd d2 H2) as [a2 [-> Ha2]].
  unfold re_sub_python3.
  rewrite !(proj1 (re_sub_from_retarget _ _)).
  split.
  - apply (retarget_retarget a1 a2 Ha1 s None a1 I).
  - apply retarget_length.
Qed.

Lemma re_sub_python3_last_target_wins_witness :
  re_sub_python3 "3" (re_sub_python3 "8" "/opt/st/Lib/Python3.3/python33.zip")
  = re_sub_python3 "3" "/opt/st/Lib/Python3.3/python33.zip"
  /\ String.length (re_sub_python3 "8" "/opt/st/Lib/Python3.3/python33.zip")
     = String.length "/opt/st/Lib/Python3.3/python33.zip".
Proof.
  apply (re_sub_python3_last_target_wins "8" "3"
           "/opt/st/Lib/Python3.3/python33.zip").
  - simpl. tauto.
  - simpl. tauto.
Defined.

(* ================================================================== *)
(** ** Further properties: the walk and the home directory *)
(* ================================================================== *)

(** X15: with a memo table that agrees with the world, [_find_venv]
    tests nothing in the home directory unless the walk starts there:
    after the existence test of the start path, every event is the test
    of the venv interpreter or of a marker name in the start directory
    or in one of its parents, and a parent that gets tested is not the
    home directory. *)
Theorem find_venv_never_inspects_home_above_start :
  forall (w : World) (root : string) (c : cache),
    cache_ok w c = true ->
    Forall (fun e =>
              e = EvLexists root
              \/ exists i,
                   round_event w (up w i root) e
                   /\ (i = 0 \/ up w i root <> USER_HOME w))
           (trace_of (_find_venv w root c)).
Proof.
  intros w root c Hok.
  destruct (os_path_lexists w root) eqn:Hex.
  - destruct (walk_stops_somewhere w (String.length root) root (Nat.le_refl _))
      as [n [Hbelow Htop]].
    destruct (find_venv_loop_walk w n root c (S (String.length root)) Hok
                ltac:(lia) Hbelow Htop) as [t [c' [Hrun [_ Ht]]]].
    rewrite (find_venv_is_loop w _ root c _ t c' Hex Hrun).
    unfold trace_of. simpl. apply Forall_cons; [left; reflexivity|].
    eapply Forall_impl; [|exact Ht].
    intros e [i [Hi He]]. right. exists i. split; [exact He|].
    destruct i as [|j]; [left; reflexivity|]. right.
    destruct (walk_continues_true w (up w j root) (Hbelow j ltac:(lia)))
      as [_ [_ Hguard]].
    apply orb_false_elim in Hguard. destruct Hguard as [_ Hhome].
    apply String.eqb_neq in Hhome. exact Hhome.
  - rewrite (find_venv_missing w root c Hex).
    unfold trace_of. simpl. apply Forall_cons; [left; reflexivity | apply Forall_nil].
Qed.

Lemma find_venv_never_inspects_home_above_start_witness :
  Forall (fun e =>
            e = EvLexists "/home/u/p"
            \/ exists i,
                 round_event (posix_world host_tree)
                   (up (posix_world host_tree) i "/home/u/p") e
                 /\ (i = 0 \/ up (posix_world host_tree) i "/home/u/p"
                              <> USER_HOME (posix_world host_tree)))
         (trace_of (_find_venv (posix_world host_tree) "/home/u/p" [])).
Proof.
  apply (find_venv_never_inspects_home_above_start (posix_world host_tree)
           "/home/u/p" [] eq_refl).
Defined.
